(** * Task lifecycle of the receipt scanner backend

    A shallow embedding of the coordination code of the repository:
    the [Task] row of [database.py], the extraction wrapper
    [JsonParser.parse_image] of [json_parser.py], the background
    processor [process_task] of [background_tasks.py] and the two
    endpoints [create_task] and [get_task] of [frontend_routers.py].

    Python values are modelled by the type [json]; Python exceptions by
    an error monad; the SQLAlchemy session by a unit of work (a list of
    pending operations) over the table [tasks], a finite map keyed by the
    primary key.  External services (the file host, the hosted model,
    [json.loads], [uuid4], the clock, the health of the storage) are inputs
    of the model. *)

From Stdlib Require Import ZArith QArith.
From Stdlib.Strings Require Import Byte.
From stdpp Require Import base option list strings pretty gmap fin_maps.

Local Open Scope Z_scope.
Set Warnings "-register-all".

(** ** Python values *)

(** The values that [json.loads] can return and that a JSON column can
    hold.  [JNone] is Python's [None]; a finite float is given by its
    rational value; a dict keeps its insertion order. *)
Inductive json : Type :=
| JNone
| JBool (b : bool)
| JInt (n : Z)
| JFloat (q : Q)
| JStr (s : string)
| JList (l : list json)
| JDict (d : list (string * json)).

Abbreviation pydict := (list (string * json)).

(** [x is None] *)
Definition is_None (v : json) : bool :=
  match v with JNone => true | _ => false end.

(** [bool(x)]: the truth value Python gives to [x] in [if x:]. *)
Definition truthy (v : json) : bool :=
  match v with
  | JNone => false
  | JBool b => b
  | JInt n => negb (Z.eqb n 0)
  | JFloat q => negb (Qeq_bool q 0)
  | JStr s => negb (String.eqb s "")
  | JList l => match l with [] => false | _ => true end
  | JDict d => match d with [] => false | _ => true end
  end.

(** The type name Python prints in its error messages. *)
Definition py_type_name (v : json) : string :=
  match v with
  | JNone => "NoneType"
  | JBool _ => "bool"
  | JInt _ => "int"
  | JFloat _ => "float"
  | JStr _ => "str"
  | JList _ => "list"
  | JDict _ => "dict"
  end.

(** The number a numeric value stands for; [True] and [False] count as 1
    and 0. *)
Definition num_value (v : json) : option Q :=
  match v with
  | JBool b => Some (if b then 1%Q else 0%Q)
  | JInt n => Some (inject_Z n)
  | JFloat q => Some q
  | _ => None
  end.

(** [d.get(k)] on an insertion-ordered dict with unique keys. *)
Fixpoint dict_get (k : string) (d : pydict) : option json :=
  match d with
  | [] => None
  | (k', v) :: d' => if String.eqb k k' then Some v else dict_get k d'
  end.

(** [d[k] = v]: overwrite in place, or append a new key. *)
Fixpoint dict_set (k : string) (v : json) (d : pydict) : pydict :=
  match d with
  | [] => [(k, v)]
  | (k', v') :: d' =>
      if String.eqb k k' then (k', v) :: d' else (k', v') :: dict_set k v d'
  end.

(** [a == b]: numbers compare by value across [bool], [int] and [float],
    lists element by element, dicts as mappings whatever the order of their
    keys. *)
Fixpoint py_eqb (a b : json) {struct a} : bool :=
  match a, b with
  | JNone, JNone => true
  | JStr s1, JStr s2 => String.eqb s1 s2
  | JList l1, JList l2 =>
      (fix all_eq (l1 l2 : list json) : bool :=
         match l1, l2 with
         | [], [] => true
         | x :: l1', y :: l2' => py_eqb x y && all_eq l1' l2'
         | _, _ => false
         end) l1 l2
  | JDict d1, JDict d2 =>
      Nat.eqb (length d1) (length d2)
      && (fix all_in (d1 : pydict) : bool :=
            match d1 with
            | [] => true
            | (k, v) :: d1' =>
                match dict_get k d2 with
                | Some v' => py_eqb v v'
                | None => false
                end && all_in d1'
            end) d1
  | _, _ =>
      match num_value a, num_value b with
      | Some x, Some y => Qeq_bool x y
      | _, _ => false
      end
  end.

(** ** Strings *)

Fixpoint str_startswith (p s : string) : bool :=
  match p, s with
  | EmptyString, _ => true
  | String a p', String b s' => Ascii.eqb a b && str_startswith p' s'
  | String _ _, EmptyString => false
  end.

(** Left-to-right scan of [str.replace] for a non-empty [old]; [skip]
    counts the characters of a match that are still to be dropped. *)
Fixpoint replace_scan (old new : string) (skip : nat) (s : string) : string :=
  match s with
  | EmptyString => EmptyString
  | String c s' =>
      match skip with
      | S k => replace_scan old new k s'
      | O =>
          if str_startswith old s
          then new +:+ replace_scan old new (Nat.pred (String.length old)) s'
          else String c (replace_scan old new O s')
      end
  end.

Fixpoint str_intersperse (new s : string) : string :=
  match s with
  | EmptyString => new
  | String c s' => new +:+ String c (str_intersperse new s')
  end.

(** [s.replace(old, new)] *)
Definition str_replace (old new s : string) : string :=
  match old with
  | EmptyString => str_intersperse new s
  | _ => replace_scan old new O s
  end.

(** ** Exceptions and the state-and-error monad *)

(** Only instances of [Exception] are modelled: every [except Exception]
    clause catches every value of this type. *)
Inductive exn : Type :=
| Exception (msg : string)
| HTTPException (status_code : Z) (detail : string).

(** [str(e)] as used in the f-strings of the log lines. *)
Definition exn_str (e : exn) : string :=
  match e with
  | Exception msg => msg
  | HTTPException code detail => pretty code +:+ ": " +:+ detail
  end.

Inductive result (A : Type) : Type :=
| Ok (a : A)
| Raise (e : exn).
Arguments Ok {A} a.
Arguments Raise {A} e.

(** A computation over a state [S] that returns or raises. *)
Definition M (S A : Type) : Type := S → result A * S.

Definition ret {S A} (a : A) : M S A := fun s => (Ok a, s).
Definition raise {S A} (e : exn) : M S A := fun s => (Raise e, s).

Definition bind {S A B} (m : M S A) (k : A → M S B) : M S B :=
  fun s =>
    match m s with
    | (Ok a, s') => k a s'
    | (Raise e, s') => (Raise e, s')
    end.

(** [try: body  except Exception as e: handler(e)] *)
Definition try_except {S A} (body : M S A) (handler : exn → M S A) : M S A :=
  fun s =>
    match body s with
    | (Ok a, s') => (Ok a, s')
    | (Raise e, s') => handler e s'
    end.

(** [try: body  finally: fin] *)
Definition try_finally {S A} (body : M S A) (fin : M S unit) : M S A :=
  fun s =>
    match body s with
    | (r, s') =>
        match fin s' with
        | (Ok _, s'') => (r, s'')
        | (Raise e, s'') => (Raise e, s'')
        end
    end.

(** A pure step that may raise. *)
Definition lift_result {S A} (r : result A) : M S A := fun s => (r, s).

Declare Scope py_scope.
Delimit Scope py_scope with py.
Notation "'let*' x ':=' c1 'in' c2" := (bind c1 (fun x => c2))
  (at level 10, x name, c1 at level 100, c2 at level 200) : py_scope.
Notation "c1 >> c2" := (bind c1 (fun _ => c2))
  (at level 100, c2 at level 200, right associativity) : py_scope.
Local Open Scope py_scope.

(** [print(line)] on a state that is just the standard output. *)
Definition print_line (line : string) : M (list string) unit :=
  fun out => (Ok tt, out ++ [line]).

(** ** External services used by the extraction wrapper *)

(** What [requests.post] returns: the status line, the URL that was
    fetched and the outcome of [response.json()]. *)
Record HttpResponse : Type := {
  status_code : Z;
  reason : string;
  url : string;
  response_json : result json;
}.

(** What the chat completion call returns, as far as the wrapper reads it:
    [response.choices[i].message.content], which may be [None]. *)
Record Choice : Type := { message_content : option string }.
Record ChatCompletion : Type := { choices : list Choice }.

Record Services : Type := {
  (** [requests.post(url, files={'file': (name, data)})] *)
  requests_post : string → string → list byte → result HttpResponse;
  (** [client.chat.completions.create(model=.., messages=..)], by model
      name, system prompt and image URL *)
  chat_completions_create : string → string → string → result ChatCompletion;
  (** [json.loads] *)
  json_loads : string → result json;
  (** [self.PROMPT], an opaque text *)
  PROMPT : string;
}.

(** [response.raise_for_status()]: an [HTTPError] for the statuses 400 to
    599, with the message [requests] builds. *)
Definition raise_for_status (r : HttpResponse) : result unit :=
  if (400 <=? status_code r) && (status_code r <? 500)
  then Raise (Exception (pretty (status_code r) +:+ " Client Error: " +:+ reason r
                         +:+ " for url: " +:+ url r))
  else if (500 <=? status_code r) && (status_code r <? 600)
  then Raise (Exception (pretty (status_code r) +:+ " Server Error: " +:+ reason r
                         +:+ " for url: " +:+ url r))
  else Ok tt.

(** [v[key]] for a string key: a [KeyError] whose text is the quoted key,
    or the [TypeError] of the value's type (texts of Python 3.11). *)
Definition getitem (v : json) (key : string) : result json :=
  match v with
  | JDict d =>
      match dict_get key d with
      | Some x => Ok x
      | None => Raise (Exception ("'" +:+ key +:+ "'"))
      end
  | JStr _ => Raise (Exception "string indices must be integers, not 'str'")
  | JList _ => Raise (Exception "list indices must be integers or slices, not str")
  | _ => Raise (Exception ("'" +:+ py_type_name v +:+ "' object is not subscriptable"))
  end.

(** [v.replace(old, new)], defined on strings only. *)
Definition method_replace (v : json) (old new : string) : result string :=
  match v with
  | JStr s => Ok (str_replace old new s)
  | _ => Raise (Exception ("'" +:+ py_type_name v +:+ "' object has no attribute 'replace'"))
  end.

(** [l[0]] *)
Definition first_choice (l : list Choice) : result Choice :=
  match l with
  | c :: _ => Ok c
  | [] => Raise (Exception "list index out of range")
  end.

Section JsonParser.
Context (self : Services).

(** [JsonParser._upload_to_tmpfiles] *)
Definition _upload_to_tmpfiles (image_data : list byte) : M (list string) string :=
  try_except
    (let* response := lift_result
       (requests_post self "https://tmpfiles.org/api/v1/upload" "receipt.jpg" image_data) in
     lift_result (raise_for_status response) >>
     let* upload_data := lift_result (response_json response) in
     let* data := lift_result (getitem upload_data "data") in
     let* url := lift_result (getitem data "url") in
     let* file_url := lift_result (method_replace url "tmpfiles.org" "tmpfiles.org/dl") in
     print_line file_url >>
     ret file_url)
    (fun e => raise (Exception ("Failed to upload image to tmpfiles.org: " +:+ exn_str e))).

(** The body of the [try] block of [JsonParser.parse_image]. *)
Definition parse_image_try (image_data : list byte) : M (list string) json :=
  let* image_url := _upload_to_tmpfiles image_data in
  let* response := lift_result
    (chat_completions_create self "Qwen/Qwen2-VL-72B-Instruct" (PROMPT self) image_url) in
  let* choice := lift_result (first_choice (choices response)) in
  let* json_text := match message_content choice with
              | Some text => ret text
              | None => raise (Exception "'NoneType' object has no attribute 'replace'")
              end in
  let json_text := str_replace "```" "" (str_replace "```json" "" json_text) in
  lift_result (json_loads self json_text).

(** [JsonParser.parse_image] *)
Definition parse_image (image_data : list byte) : M (list string) json :=
  try_except
    (parse_image_try image_data)
    (fun e => print_line ("Failed to process image: " +:+ exn_str e) >> ret (JDict [])).
End JsonParser.


(** ** The table [tasks] and the session *)

(** A row of the table [tasks] ([class Task]).  The JSON column reads back
    as [JNone] both when it was never set and when [None] was stored. *)
Record Task : Type := {
  task_id : string;
  image_data : list byte;
  extracted_json : json;
  created_at : Z;
  updated_at : Z;
}.

(** What a session holds between two commits: rows given to [db.add], and
    assignments to the attribute [extracted_json] of a loaded row. *)
Inductive pending_op : Type :=
| PendingInsert (new_task_id : string) (new_image_data : list byte)
| PendingUpdate (row_id : string) (new_extracted_json : json).

(** Ghost record of the order of the effects the claims speak about. *)
Inductive event : Type :=
| EvCommit
| EvAddTask (scheduled_id : string)
| EvParseImage (parsed_id : string).

Record World : Type := {
  (** the durable table, keyed by the primary key [task_id] *)
  tasks : gmap string Task;
  (** the unit of work of the open session *)
  session : list pending_op;
  (** lines written by [print] *)
  stdout : list string;
  (** the [BackgroundTasks] object of the request, [None] when the handler
      got none; it holds the arguments given to
      [add_task(process_task, task_id)] *)
  background_tasks : option (list string);
  trace : list event;
}.

Definition set_tasks (f : gmap string Task → gmap string Task) (w : World) : World :=
  {| tasks := f (tasks w); session := session w; stdout := stdout w;
     background_tasks := background_tasks w; trace := trace w |}.
Definition set_session (f : list pending_op → list pending_op) (w : World) : World :=
  {| tasks := tasks w; session := f (session w); stdout := stdout w;
     background_tasks := background_tasks w; trace := trace w |}.
Definition set_stdout (f : list string → list string) (w : World) : World :=
  {| tasks := tasks w; session := session w; stdout := f (stdout w);
     background_tasks := background_tasks w; trace := trace w |}.
Definition set_background_tasks (f : option (list string) → option (list string))
    (w : World) : World :=
  {| tasks := tasks w; session := session w; stdout := stdout w;
     background_tasks := f (background_tasks w); trace := trace w |}.
Definition log_event (e : event) (w : World) : World :=
  {| tasks := tasks w; session := session w; stdout := stdout w;
     background_tasks := background_tasks w; trace := trace w ++ [e] |}.

(** The inputs of one request or one processor run that the code does not
    control. *)
Record Runtime : Type := {
  (** [str(uuid.uuid4())] *)
  uuid4 : string;
  (** [datetime.utcnow()] as evaluated for [updated_at]: its default at an
      INSERT, its [onupdate] at an UPDATE *)
  utcnow : Z;
  (** [datetime.utcnow()] as evaluated for the default of [created_at] at an
      INSERT, a separate reading of the clock *)
  utcnow_created : Z;
  (** whether the storage refuses the durable write of this run *)
  storage_fails : bool;
}.

(** [print] in a handler or in the processor. *)
Definition print (line : string) : M World unit :=
  fun w => (Ok tt, set_stdout (fun out => out ++ [line]) w).

(** Run a computation that only prints, such as the extraction wrapper. *)
Definition lift_stdout {A} (m : M (list string) A) : M World A :=
  fun w => match m (stdout w) with (r, out) => (r, set_stdout (fun _ => out) w) end.

(** [SessionLocal()]: a session with an empty unit of work. *)
Definition SessionLocal : M World unit :=
  fun w => (Ok tt, set_session (fun _ => []) w).

(** [db.close()]: what was not committed is dropped. *)
Definition db_close : M World unit :=
  fun w => (Ok tt, set_session (fun _ => []) w).

(** [db.rollback()] *)
Definition db_rollback : M World unit :=
  fun w => (Ok tt, set_session (fun _ => []) w).

(** [db.query(Task).filter(Task.task_id == task_id).first()]; the session
    does not flush before a query ([autoflush=False]).  The read is taken to
    succeed: a storage that fails is modelled at the commit only. *)
Definition query_first (id : string) : M World (option Task) :=
  fun w => (Ok (tasks w !! id), w).

(** [db.add(Task(task_id=.., image_data=..))] *)
Definition db_add (id : string) (contents : list byte) : M World unit :=
  fun w => (Ok tt, set_session (fun ops => ops ++ [PendingInsert id contents]) w).

(** [task.extracted_json = json_data] on a row loaded by this session. *)
Definition set_extracted_json (id : string) (json_data : json) : M World unit :=
  fun w => (Ok tt, set_session (fun ops => ops ++ [PendingUpdate id json_data]) w).

(** One statement of the flush.  For a row given to [db.add], an INSERT:
    the column defaults fill the result and the two timestamps, each from
    its own reading of the clock, and a duplicate primary key is refused.
    For an assignment to [extracted_json], the unit of work compares the
    assigned value with the loaded one by [==]: when they are equal no
    UPDATE is emitted and the row stays as it is, [updated_at] included;
    otherwise the UPDATE writes the value and its [onupdate] default
    refreshes [updated_at].  The texts of the storage errors depend on the
    database driver and stand for it. *)
Definition flush_op (rt : Runtime) (rows : gmap string Task) (op : pending_op)
    : result (gmap string Task) :=
  match op with
  | PendingInsert id contents =>
      match rows !! id with
      | Some _ => Raise (Exception "IntegrityError: duplicate key")
      | None =>
          Ok (<[id := {| task_id := id; image_data := contents; extracted_json := JNone;
                         created_at := utcnow_created rt; updated_at := utcnow rt |}]> rows)
      end
  | PendingUpdate id json_data =>
      match rows !! id with
      | Some t =>
          if py_eqb json_data (extracted_json t) then Ok rows
          else
            Ok (<[id := {| task_id := task_id t; image_data := image_data t;
                           extracted_json := json_data;
                           created_at := created_at t; updated_at := utcnow rt |}]> rows)
      | None => Raise (Exception "StaleDataError")
      end
  end.

Fixpoint flush (rt : Runtime) (rows : gmap string Task) (ops : list pending_op)
    : result (gmap string Task) :=
  match ops with
  | [] => Ok rows
  | op :: ops' =>
      match flush_op rt rows op with
      | Ok rows' => flush rt rows' ops'
      | Raise e => Raise e
      end
  end.

(** [db.commit()]: all pending statements reach the table, or none does and
    the error is raised. *)
Definition db_commit (rt : Runtime) : M World unit :=
  fun w =>
    if storage_fails rt then (Raise (Exception "OperationalError"), w)
    else
      match flush rt (tasks w) (session w) with
      | Ok rows' =>
          (Ok tt, log_event EvCommit (set_session (fun _ => []) (set_tasks (fun _ => rows') w)))
      | Raise e => (Raise e, w)
      end.

(** [db.refresh(new_task)] *)
Definition db_refresh (id : string) : M World Task :=
  fun w =>
    match tasks w !! id with
    | Some t => (Ok t, w)
    | None => (Raise (Exception "InvalidRequestError: could not refresh instance"), w)
    end.

(** [Task.generate_task_id] *)
Definition generate_task_id (rt : Runtime) : string := uuid4 rt.

(** A request handler run with [db = Depends(get_db)]: [get_db] opens the
    session, yields it, and closes it in its [finally]. *)
Definition Depends_get_db {A} (handler : M World A) : M World A :=
  SessionLocal >> try_finally handler db_close.

(** ** The background processor ([background_tasks.py]) *)

(** The bound method [json_parser.parse_image] the processor calls: it can
    print, return or raise, and has no handle on the session. *)
Abbreviation parse_image_t := (list byte → M (list string) json).

Definition call_parse_image (json_parser : parse_image_t) (t : Task) : M World json :=
  fun w => lift_stdout (json_parser (image_data t)) (log_event (EvParseImage (task_id t)) w).

(** The body of the inner [try] block of [process_task]: extraction, then
    the assignment and the commit. *)
Definition process_task_try (json_parser : parse_image_t) (rt : Runtime) (id : string)
    (task : Task) : M World unit :=
  let* json_data := call_parse_image json_parser task in
  set_extracted_json (task_id task) json_data >>
  db_commit rt >>
  print ("Task " +:+ id +:+ " processed successfully").

(** [process_task] *)
Definition process_task (json_parser : parse_image_t) (rt : Runtime) (id : string)
    : M World unit :=
  SessionLocal >>
  try_finally
    (let* task := query_first id in
     match task with
     | None => print ("Task " +:+ id +:+ " not found")
     | Some task =>
         try_except
           (process_task_try json_parser rt id task)
           (fun e =>
              print ("Error processing task " +:+ id +:+ ": " +:+ exn_str e) >>
              db_rollback)
     end)
    db_close.

(** ** The endpoints ([frontend_routers.py]) *)

(** [background_tasks.add_task(process_task, task_id)] under
    [if background_tasks:] *)
Definition add_task_if_present (id : string) : M World unit :=
  fun w =>
    match background_tasks w with
    | Some queue =>
        (Ok tt, log_event (EvAddTask id) (set_background_tasks (fun _ => Some (queue ++ [id])) w))
    | None => (Ok tt, w)
    end.

(** [create_task]; [contents] is what [await file.read()] returned. *)
Definition create_task (rt : Runtime) (contents : list byte) : M World pydict :=
  Depends_get_db
    (let id := generate_task_id rt in
     db_add id contents >>
     db_commit rt >>
     let* new_task := db_refresh id in
     add_task_if_present id >>
     ret [("task_id", JStr id)]).

(** The dict built by [get_task] for a row that was found. *)
Definition get_task_response (task : Task) : pydict :=
  let response := [("task_id", JStr (task_id task))] in
  if is_None (extracted_json task)
  then dict_set "status" (JStr "processing") response
  else
    let response := dict_set "status" (JStr "completed") response in
    if truthy (extracted_json task)
    then dict_set "extracted_json" (extracted_json task) response
    else response.

(** [get_task] *)
Definition get_task (id : string) : M World pydict :=
  Depends_get_db
    (let* task := query_first id in
     match task with
     | None => raise (HTTPException 404 "Task not found")
     | Some task => ret (get_task_response task)
     end).

(** Polling any number of times, for any identifiers. *)
Fixpoint polls (ids : list string) (w : World) : World :=
  match ids with
  | [] => w
  | id :: ids' => polls ids' (snd (get_task id w))
  end.

(** The row as the processor leaves it after a successful commit. *)
Definition with_result (t : Task) (json_data : json) (now : Z) : Task :=
  {| task_id := task_id t; image_data := image_data t; extracted_json := json_data;
     created_at := created_at t; updated_at := now |}.

(** The line printed by the [except] clause of [process_task]. *)
Definition error_line (id : string) (e : exn) : string :=
  "Error processing task " +:+ id +:+ ": " +:+ exn_str e.

(** The row that [create_task] inserts. *)
Definition new_task (rt : Runtime) (contents : list byte) : Task :=
  {| task_id := uuid4 rt; image_data := contents; extracted_json := JNone;
     created_at := utcnow_created rt; updated_at := utcnow rt |}.

(** The row a run of the processor leaves when its commit goes through: the
    row as it was when the returned value equals the stored one, the row
    with the new result and time otherwise. *)
Definition stored_after (t : Task) (json_data : json) (now : Z) : Task :=
  if py_eqb json_data (extracted_json t) then t else with_result t json_data now.

(** The calls the service receives: uploads, processor runs and polls, in
    any order. *)
Inductive call : Type :=
| CallCreate (rt : Runtime) (contents : list byte)
| CallProcess (json_parser : parse_image_t) (rt : Runtime) (id : string)
| CallPoll (id : string).

Definition serve (c : call) (w : World) : World :=
  match c with
  | CallCreate rt contents => snd (create_task rt contents w)
  | CallProcess json_parser rt id => snd (process_task json_parser rt id w)
  | CallPoll id => snd (get_task id w)
  end.

Definition serve_all (calls : list call) (w : World) : World :=
  fold_left (fun w c => serve c w) calls w.

(** ** A concrete run: the scenario of one upload *)

Module Scenario.
Definition world0 : World :=
  {| tasks := ∅; session := []; stdout := []; background_tasks := Some []; trace := [] |}.

Definition fake_image : list byte := String.list_byte_of_string "fake-image".

Definition at_create : Runtime :=
  {| uuid4 := "abc123"; utcnow := 1001; utcnow_created := 1000; storage_fails := false |}.
Definition at_process : Runtime :=
  {| uuid4 := "unused"; utcnow := 2000; utcnow_created := 2000; storage_fails := false |}.
Definition storage_down : Runtime :=
  {| uuid4 := "unused"; utcnow := 2000; utcnow_created := 2000; storage_fails := true |}.

(** Stubs for [json_parser.parse_image]. *)
Definition stub_raising : parse_image_t := fun _ => raise (Exception "boom").
Definition stub_returning (v : json) : parse_image_t := fun _ => ret v.

Definition receipt : json := JDict [("total_amount", JFloat (25 # 2)); ("items", JList [])].

(** The real wrapper with the file host unreachable. *)
Definition offline : Services :=
  {| requests_post := fun _ _ _ => Raise (Exception "ConnectionError");
     chat_completions_create := fun _ _ _ => Raise (Exception "APIError");
     json_loads := fun _ => Raise (Exception "JSONDecodeError");
     PROMPT := "prompt" |}.

(** The state after the upload, before the processor has run. *)
Definition created : World := snd (create_task at_create fake_image world0).

(** The row of the upload. *)
Definition row : Task := new_task at_create fake_image.

(** The state after a run of the processor with the file host unreachable,
    and after a run with a stub that raises. *)
Definition after_failed_extraction : World :=
  snd (process_task (parse_image offline) at_process "abc123" created).
Definition after_raising_stub : World :=
  snd (process_task stub_raising at_process "abc123" created).
End Scenario.

(** The representation invariant of the table: a row is stored under its
    own primary key. *)
Definition store_ok (w : World) : Prop :=
  ∀ k t, tasks w !! k = Some t → task_id t = k.

(** The extraction fails inside the wrapper: the [try] block of
    [parse_image] raises. *)
Definition extraction_fails (svc : Services) (image : list byte) (out : list string) : Prop :=
  ∃ e out', parse_image_try svc image out = (Raise e, out').

(** [old in s] *)
Fixpoint str_contains (old s : string) : bool :=
  str_startswith old s
  || match s with
     | EmptyString => false
     | String _ s' => str_contains old s'
     end.

(** The error of the step of [_upload_to_tmpfiles] that failed: the
    request, [raise_for_status], [response.json()], one of the two
    subscripts, or [replace]. *)
Inductive upload_cause (svc : Services) (image : list byte) : exn → Prop :=
| CauseRequest (e : exn) :
    requests_post svc "https://tmpfiles.org/api/v1/upload" "receipt.jpg" image = Raise e →
    upload_cause svc image e
| CauseStatus (resp : HttpResponse) (e : exn) :
    requests_post svc "https://tmpfiles.org/api/v1/upload" "receipt.jpg" image = Ok resp →
    raise_for_status resp = Raise e →
    upload_cause svc image e
| CauseJson (resp : HttpResponse) (e : exn) :
    requests_post svc "https://tmpfiles.org/api/v1/upload" "receipt.jpg" image = Ok resp →
    raise_for_status resp = Ok tt →
    response_json resp = Raise e →
    upload_cause svc image e
| CauseData (resp : HttpResponse) (body : json) (e : exn) :
    requests_post svc "https://tmpfiles.org/api/v1/upload" "receipt.jpg" image = Ok resp →
    raise_for_status resp = Ok tt →
    response_json resp = Ok body →
    getitem body "data" = Raise e →
    upload_cause svc image e
| CauseUrl (resp : HttpResponse) (body data : json) (e : exn) :
    requests_post svc "https://tmpfiles.org/api/v1/upload" "receipt.jpg" image = Ok resp →
    raise_for_status resp = Ok tt →
    response_json resp = Ok body →
    getitem body "data" = Ok data →
    getitem data "url" = Raise e →
    upload_cause svc image e
| CauseReplace (resp : HttpResponse) (body data file_url : json) (e : exn) :
    requests_post svc "https://tmpfiles.org/api/v1/upload" "receipt.jpg" image = Ok resp →
    raise_for_status resp = Ok tt →
    response_json resp = Ok body →
    getitem body "data" = Ok data →
    getitem data "url" = Ok file_url →
    method_replace file_url "tmpfiles.org" "tmpfiles.org/dl" = Raise e →
    upload_cause svc image e.

(** Every identifier handed to [add_task] names a row of the table. *)
Definition scheduled_ok (w : World) : Prop :=
  ∀ queue id, background_tasks w = Some queue → id ∈ queue → is_Some (tasks w !! id).

(** The events a single run of the processor can add to the trace. *)
Definition processor_events (l : list event) : Prop :=
  l = [] ∨ ∃ k, l = [EvParseImage k] ∨ l = [EvParseImage k; EvCommit].

(** ** A concrete run with the services reachable *)

Module Online.
(** What the file host answers to an upload. *)
Definition upload_answer : HttpResponse :=
  {| status_code := 200;
     reason := "OK";
     url := "https://tmpfiles.org/api/v1/upload";
     response_json :=
       Ok (JDict [("status", JStr "success");
                  ("data", JDict [("url", JStr "https://tmpfiles.org/123/receipt.jpg")])]) |}.

(** The model answers with a fenced JSON text. *)
Definition model_answer : ChatCompletion :=
  {| choices := [ {| message_content := Some "```json[12, 5]```" |} ] |}.

Definition parsed : json := JList [JInt 12; JInt 5].

Definition svc : Services :=
  {| requests_post := fun _ _ _ => Ok upload_answer;
     chat_completions_create := fun _ _ _ => Ok model_answer;
     json_loads := fun text =>
       if String.eqb text "[12, 5]" then Ok parsed else Raise (Exception "JSONDecodeError");
     PROMPT := "prompt" |}.

(** The file host answers with an error status. *)
Definition host_error : Services :=
  {| requests_post := fun _ _ _ =>
       Ok {| status_code := 503;
             reason := "Service Unavailable";
             url := "https://tmpfiles.org/api/v1/upload";
             response_json := Raise (Exception "Expecting value: line 1 column 1 (char 0)") |};
     chat_completions_create := fun _ _ _ => Ok model_answer;
     json_loads := json_loads svc;
     PROMPT := "prompt" |}.

(** The model answers with no choice at all. *)
Definition no_choice : Services :=
  {| requests_post := fun _ _ _ => Ok upload_answer;
     chat_completions_create := fun _ _ _ => Ok {| choices := [] |};
     json_loads := json_loads svc;
     PROMPT := "prompt" |}.

(** A second upload, after the first one of the scenario. *)
Definition at_second_create : Runtime :=
  {| uuid4 := "def456"; utcnow := 3001; utcnow_created := 3000; storage_fails := false |}.
Definition colliding_create : Runtime :=
  {| uuid4 := "abc123"; utcnow := 3001; utcnow_created := 3000; storage_fails := false |}.

(** The state after the upload of the scenario and a run of the processor
    with a stub that returns a receipt. *)
Definition after_extraction : World :=
  snd (process_task (Scenario.stub_returning Scenario.receipt) Scenario.at_process
         "abc123" Scenario.created).
End Online.

(** ** Properties of the model *)

Local Arguments String.append : simpl never.

Ltac unfold_py :=
  unfold Depends_get_db, SessionLocal, db_close, db_rollback, query_first,
    db_add, set_extracted_json, db_refresh, add_task_if_present, print,
    call_parse_image, lift_stdout, lift_result, try_finally, try_except,
    bind, ret, raise in *.

(** *** Polling *)

Lemma get_task_found (id : string) (w : World) (t : Task) :
  tasks w !! id = Some t →
  get_task id w = (Ok (get_task_response t), set_session (fun _ => []) w).
Proof.
  intros Hrow. unfold get_task. unfold_py. cbn. rewrite Hrow. reflexivity.
Qed.

Lemma get_task_missing (id : string) (w : World) :
  tasks w !! id = None →
  get_task id w = (Raise (HTTPException 404 "Task not found"), set_session (fun _ => []) w).
Proof.
  intros Hrow. unfold get_task. unfold_py. cbn. rewrite Hrow. reflexivity.
Qed.

Lemma get_task_tasks (id : string) (w : World) :
  tasks (snd (get_task id w)) = tasks w.
Proof.
  destruct (tasks w !! id) as [t|] eqn:Hrow.
  - rewrite (get_task_found _ _ _ Hrow). reflexivity.
  - rewrite (get_task_missing _ _ Hrow). reflexivity.
Qed.

Lemma polls_tasks (ids : list string) (w : World) :
  tasks (polls ids w) = tasks w.
Proof.
  revert w. induction ids as [|id ids IH]; intros w; cbn; [reflexivity|].
  rewrite IH. apply get_task_tasks.
Qed.

(** The answer of a poll is a function of the stored row alone. *)
Lemma get_task_after_polls (id : string) (ids : list string) (w : World) (t : Task) :
  tasks w !! id = Some t →
  fst (get_task id (polls ids w)) = Ok (get_task_response t).
Proof.
  intros Hrow. rewrite (get_task_found id (polls ids w) t); [reflexivity|].
  rewrite polls_tasks. exact Hrow.
Qed.

Lemma response_status (t : Task) :
  dict_get "status" (get_task_response t)
  = Some (JStr (if is_None (extracted_json t) then "processing" else "completed")).
Proof.
  unfold get_task_response.
  destruct (is_None (extracted_json t)); [reflexivity|].
  destruct (truthy (extracted_json t)); reflexivity.
Qed.

Lemma response_extracted_json (t : Task) :
  dict_get "extracted_json" (get_task_response t)
  = if truthy (extracted_json t) then Some (extracted_json t) else None.
Proof.
  unfold get_task_response.
  destruct (extracted_json t) as [|b|n|q|s|l|d]; cbn; try reflexivity.
  - destruct b; reflexivity.
  - destruct (negb (Z.eqb n 0)); reflexivity.
  - destruct (negb (Qeq_bool q 0)); reflexivity.
  - destruct (negb (String.eqb s "")); reflexivity.
  - destruct l; reflexivity.
  - destruct d; reflexivity.
Qed.


(** *** The processor *)

Lemma process_task_absent (json_parser : parse_image_t) (rt : Runtime) (id : string)
    (w : World) :
  tasks w !! id = None →
  process_task json_parser rt id w
  = (Ok tt, set_session (fun _ => [])
              (set_stdout (fun out => out ++ ["Task " +:+ id +:+ " not found"]) w)).
Proof.
  intros Hrow. unfold process_task. unfold_py. cbn. rewrite Hrow. reflexivity.
Qed.

(** With the row found, the processor runs the inner [try] block in a fresh
    session; its [except] clause logs and rolls back, and the [finally]
    closes the session.  No outcome of the block reaches the caller. *)
Lemma process_task_found (json_parser : parse_image_t) (rt : Runtime) (id : string)
    (w : World) (t : Task) :
  tasks w !! id = Some t →
  process_task json_parser rt id w
  = match process_task_try json_parser rt id t (set_session (fun _ => []) w) with
    | (Ok _, w1) => (Ok tt, set_session (fun _ => []) w1)
    | (Raise e, w1) =>
        (Ok tt, set_session (fun _ => [])
                  (set_stdout (fun out => out ++ [error_line id e]) w1))
    end.
Proof.
  intros Hrow. unfold process_task. unfold_py. cbn. rewrite Hrow.
  destruct (process_task_try json_parser rt id t _) as [[[]|e] w1]; reflexivity.
Qed.

(** The three ways through the inner [try] block. *)
Lemma process_task_try_parser_raises (json_parser : parse_image_t) (rt : Runtime)
    (id : string) (t : Task) (w : World) (e : exn) (out : list string) :
  json_parser (image_data t) (stdout w) = (Raise e, out) →
  process_task_try json_parser rt id t w
  = (Raise e, set_stdout (fun _ => out) (log_event (EvParseImage (task_id t)) w)).
Proof.
  intros Hparse. unfold process_task_try. unfold_py. cbn. rewrite Hparse. reflexivity.
Qed.

Lemma process_task_try_commit_fails (json_parser : parse_image_t) (rt : Runtime)
    (id : string) (t : Task) (w : World) (v : json) (out : list string) :
  json_parser (image_data t) (stdout w) = (Ok v, out) →
  storage_fails rt = true →
  process_task_try json_parser rt id t w
  = (Raise (Exception "OperationalError"),
     set_session (fun ops => ops ++ [PendingUpdate (task_id t) v])
       (set_stdout (fun _ => out) (log_event (EvParseImage (task_id t)) w))).
Proof.
  intros Hparse Hfail. unfold process_task_try, db_commit. unfold_py. cbn.
  rewrite Hparse. cbn. rewrite Hfail. reflexivity.
Qed.

Lemma process_task_try_commits (json_parser : parse_image_t) (rt : Runtime)
    (id : string) (t : Task) (w : World) (v : json) (out : list string) :
  json_parser (image_data t) (stdout w) = (Ok v, out) →
  storage_fails rt = false →
  session w = [] →
  tasks w !! task_id t = Some t →
  process_task_try json_parser rt id t w
  = (Ok tt,
     set_stdout (fun o => o ++ ["Task " +:+ id +:+ " processed successfully"])
       (log_event EvCommit
          (set_session (fun _ => [])
             (set_tasks (fun rows => <[task_id t := stored_after t v (utcnow rt)]> rows)
                (set_stdout (fun _ => out) (log_event (EvParseImage (task_id t)) w)))))).
Proof.
  intros Hparse Hok Hsess Hrow. unfold process_task_try, db_commit. unfold_py. cbn.
  rewrite Hparse. cbn. rewrite Hok, Hsess. cbn. rewrite Hrow. unfold stored_after.
  destruct (py_eqb v (extracted_json t)); cbn; [|reflexivity].
  unfold set_stdout, log_event, set_session, set_tasks. cbn.
  rewrite (insert_id _ _ _ Hrow). reflexivity.
Qed.

(** A raising [try] block has written nothing to the table. *)
Lemma process_task_try_raise_tasks (json_parser : parse_image_t) (rt : Runtime)
    (id : string) (t : Task) (w w1 : World) (e : exn) :
  process_task_try json_parser rt id t w = (Raise e, w1) →
  tasks w1 = tasks w ∧ background_tasks w1 = background_tasks w.
Proof.
  unfold process_task_try, db_commit. unfold_py. cbn.
  destruct (json_parser (image_data t) (stdout w)) as [[v|e'] out]; cbn.
  - destruct (storage_fails rt); cbn.
    + intros [= <- <-]. split; reflexivity.
    + destruct (flush _ _ _) as [rows'|e'']; cbn.
      * intros [=].
      * intros [= <- <-]. split; reflexivity.
  - intros [= <- <-]. split; reflexivity.
Qed.

(** *** The extraction wrapper *)

Lemma parse_image_cases (svc : Services) (image : list byte) (out : list string) :
  parse_image svc image out
  = match parse_image_try svc image out with
    | (Ok v, out') => (Ok v, out')
    | (Raise e, out') => (Ok (JDict []), out' ++ ["Failed to process image: " +:+ exn_str e])
    end.
Proof.
  unfold parse_image, try_except, bind, ret, print_line.
  destruct (parse_image_try svc image out) as [[v|e] out']; reflexivity.
Qed.

Lemma parse_image_returns (svc : Services) (image : list byte) (out : list string) :
  ∃ v out', parse_image svc image out = (Ok v, out').
Proof.
  rewrite parse_image_cases.
  destruct (parse_image_try svc image out) as [[v|e] out']; eauto.
Qed.

Lemma parse_image_of_failure (svc : Services) (image : list byte) (out : list string) :
  extraction_fails svc image out →
  ∃ out', parse_image svc image out = (Ok (JDict []), out').
Proof.
  intros (e & out' & Hbody). rewrite parse_image_cases, Hbody. eauto.
Qed.

(** An error of the upload request makes the [try] block raise. *)
Lemma upload_error_fails (svc : Services) (image : list byte) (out : list string) (e : exn) :
  requests_post svc "https://tmpfiles.org/api/v1/upload" "receipt.jpg" image = Raise e →
  extraction_fails svc image out.
Proof.
  intros Hpost. unfold extraction_fails, parse_image_try, _upload_to_tmpfiles.
  unfold_py. rewrite Hpost. cbn. eauto.
Qed.

(** An error of the model call makes the [try] block raise, whatever URL the
    upload produced. *)
Lemma model_error_fails (svc : Services) (image : list byte) (out : list string) :
  (∀ url, ∃ e, chat_completions_create svc "Qwen/Qwen2-VL-72B-Instruct" (PROMPT svc) url
               = Raise e) →
  extraction_fails svc image out.
Proof.
  intros Hchat. unfold extraction_fails, parse_image_try. unfold bind at 1.
  destruct (_upload_to_tmpfiles svc image out) as [[url|e] out1]; [|eauto].
  unfold_py. destruct (Hchat url) as [e He]. rewrite He. eauto.
Qed.

(** A model output that [json.loads] rejects makes the [try] block raise. *)
Lemma unparsable_output_fails (svc : Services) (image : list byte) (out : list string) :
  (∀ text, ∃ e, json_loads svc text = Raise e) →
  extraction_fails svc image out.
Proof.
  intros Hloads. unfold extraction_fails, parse_image_try. unfold bind at 1.
  destruct (_upload_to_tmpfiles svc image out) as [[url|e] out1]; [|eauto].
  unfold_py.
  destruct (chat_completions_create svc _ _ url) as [response|e]; [|eauto].
  destruct (first_choice (choices response)) as [choice|e]; [|eauto].
  destruct (message_content choice) as [text|]; [|eauto].
  destruct (Hloads (str_replace "```" "" (str_replace "```json" "" text))) as [e He].
  rewrite He. eauto.
Qed.

(** *** The representation invariant *)

Lemma flush_op_store_ok (rt : Runtime) (rows rows' : gmap string Task) (op : pending_op) :
  (∀ k t, rows !! k = Some t → task_id t = k) →
  flush_op rt rows op = Ok rows' →
  ∀ k t, rows' !! k = Some t → task_id t = k.
Proof.
  intros Hinv. destruct op as [id contents|id v]; cbn.
  - destruct (rows !! id) as [t0|] eqn:Hrow; [intros [=]|].
    intros [= <-] k t. rewrite lookup_insert. case_decide as Hk.
    + intros [= <-]. cbn. exact Hk.
    + apply Hinv.
  - destruct (rows !! id) as [t0|] eqn:Hrow; [|intros [=]].
    destruct (py_eqb v (extracted_json t0)); [intros [= <-]; exact Hinv|].
    intros [= <-] k t. rewrite lookup_insert. case_decide as Hk.
    + intros [= <-]. cbn. subst k. apply Hinv. exact Hrow.
    + apply Hinv.
Qed.

Lemma get_task_store_ok (id : string) (w : World) :
  store_ok w → store_ok (snd (get_task id w)).
Proof. unfold store_ok. rewrite get_task_tasks. auto. Qed.

(** What a run of the processor does to the table: nothing, or one
    assignment to the result of the row it was run on. *)
Lemma process_task_tasks (json_parser : parse_image_t) (rt : Runtime) (id : string)
    (w : World) (t : Task) :
  store_ok w →
  tasks w !! id = Some t →
  tasks (snd (process_task json_parser rt id w)) = tasks w
  ∨ ∃ v, tasks (snd (process_task json_parser rt id w))
         = <[id := with_result t v (utcnow rt)]> (tasks w).
Proof.
  intros Hinv Hrow. pose proof (Hinv _ _ Hrow) as Hid.
  rewrite (process_task_found _ _ _ _ _ Hrow).
  destruct (json_parser (image_data t) (stdout w)) as [[v|e] out] eqn:Hparse.
  - destruct (storage_fails rt) eqn:Hst.
    + rewrite (process_task_try_commit_fails _ _ _ _ _ v out); auto.
    + rewrite (process_task_try_commits _ _ _ _ _ v out); auto.
      * cbn. rewrite Hid. unfold stored_after.
        destruct (py_eqb v (extracted_json t)).
        -- left. apply insert_id, Hrow.
        -- right. exists v. reflexivity.
      * cbn. rewrite Hid. exact Hrow.
  - rewrite (process_task_try_parser_raises _ _ _ _ _ e out); auto.
Qed.

Lemma process_task_store_ok (json_parser : parse_image_t) (rt : Runtime) (id : string)
    (w : World) :
  store_ok w → store_ok (snd (process_task json_parser rt id w)).
Proof.
  intros Hinv. destruct (tasks w !! id) as [t|] eqn:Hrow.
  - destruct (process_task_tasks json_parser rt id w t Hinv Hrow) as [Heq|[v Heq]];
      unfold store_ok; rewrite Heq; [exact Hinv|].
    intros k t'. rewrite lookup_insert. case_decide as Hk.
    + intros [= <-]. cbn. subst k. apply (Hinv _ _ Hrow).
    + apply Hinv.
  - rewrite (process_task_absent _ _ _ _ Hrow). exact Hinv.
Qed.

(** *** Creation *)

Lemma create_task_ok (rt : Runtime) (contents : list byte) (w : World) :
  storage_fails rt = false →
  tasks w !! uuid4 rt = None →
  ∃ w', create_task rt contents w = (Ok [("task_id", JStr (uuid4 rt))], w')
        ∧ tasks w' = <[uuid4 rt := new_task rt contents]> (tasks w)
        ∧ trace w' = trace w ++ EvCommit ::
                       match background_tasks w with
                       | Some _ => [EvAddTask (uuid4 rt)]
                       | None => []
                       end
        ∧ background_tasks w' = (fun queue => queue ++ [uuid4 rt]) <$> background_tasks w
        ∧ stdout w' = stdout w
        ∧ session w' = [].
Proof.
  intros Hst Hfresh. unfold create_task, generate_task_id, db_commit. unfold_py. cbn.
  rewrite Hst. cbn. rewrite Hfresh. cbn. rewrite lookup_insert_eq. cbn.
  destruct (background_tasks w) as [queue|] eqn:Hbg; cbn;
    eexists; (split; [reflexivity|]); cbn; rewrite ?Hbg, <- ?app_assoc; cbn;
    repeat split; reflexivity.
Qed.

Lemma create_task_returns_inv (rt : Runtime) (contents : list byte) (w w' : World)
    (resp : pydict) :
  create_task rt contents w = (Ok resp, w') →
  storage_fails rt = false ∧ tasks w !! uuid4 rt = None.
Proof.
  unfold create_task, generate_task_id, db_commit. unfold_py. cbn.
  destruct (storage_fails rt); cbn; [intros [=]|].
  destruct (tasks w !! uuid4 rt); cbn; [intros [=]|]. auto.
Qed.

Lemma create_task_raises_inv (rt : Runtime) (contents : list byte) (w w' : World)
    (e : exn) :
  create_task rt contents w = (Raise e, w') →
  tasks w' = tasks w ∧ trace w' = trace w
  ∧ background_tasks w' = background_tasks w ∧ stdout w' = stdout w.
Proof.
  intros Hrun.
  destruct (storage_fails rt) eqn:Hst.
  - revert Hrun. unfold create_task, generate_task_id, db_commit. unfold_py. cbn.
    rewrite Hst. cbn. intros [= <- <-]. auto.
  - destruct (tasks w !! uuid4 rt) as [t|] eqn:Hrow.
    + revert Hrun. unfold create_task, generate_task_id, db_commit. unfold_py. cbn.
      rewrite Hst. cbn. rewrite Hrow. cbn. intros [= <- <-]. auto.
    + destruct (create_task_ok rt contents w Hst Hrow) as (w1 & Heq & _).
      rewrite Heq in Hrun. discriminate.
Qed.

Lemma create_task_store_ok (rt : Runtime) (contents : list byte) (w : World) :
  store_ok w → store_ok (snd (create_task rt contents w)).
Proof.
  intros Hinv. destruct (create_task rt contents w) as [[resp|e] w'] eqn:Hrun; cbn.
  - destruct (create_task_returns_inv _ _ _ _ _ Hrun) as [Hst Hfresh].
    destruct (create_task_ok rt contents w Hst Hfresh) as (w1 & Heq & Htasks & _).
    rewrite Heq in Hrun. injection Hrun as _ <-.
    unfold store_ok. rewrite Htasks. intros k t. rewrite lookup_insert.
    case_decide as Hk; [intros [= <-]; exact Hk | apply Hinv].
  - destruct (create_task_raises_inv _ _ _ _ _ Hrun) as [Htasks _].
    unfold store_ok. rewrite Htasks. exact Hinv.
Qed.

Lemma world0_store_ok : store_ok Scenario.world0.
Proof. intros k t. cbn. rewrite lookup_empty. discriminate. Qed.

Lemma created_store_ok : store_ok Scenario.created.
Proof. apply create_task_store_ok, world0_store_ok. Qed.

(** No call removes a row: an identifier that was issued stays in the
    table. *)
Lemma process_task_try_ok_inv (json_parser : parse_image_t) (rt : Runtime) (id : string)
    (t : Task) (w w1 : World) (u : unit) :
  session w = [] →
  process_task_try json_parser rt id t w = (Ok u, w1) →
  ∃ t0 v, tasks w !! task_id t = Some t0
          ∧ tasks w1 = <[task_id t := stored_after t0 v (utcnow rt)]> (tasks w).
Proof.
  intros Hsess. unfold process_task_try, db_commit. unfold_py. cbn.
  destruct (json_parser (image_data t) (stdout w)) as [[v|e] out]; cbn; [|intros [=]].
  destruct (storage_fails rt); cbn; [intros [=]|].
  rewrite Hsess. cbn.
  destruct (tasks w !! task_id t) as [t0|] eqn:Hrow; cbn; [|intros [=]].
  destruct (py_eqb v (extracted_json t0)) eqn:Heq; cbn;
    intros [= _ <-]; exists t0, v; (split; [reflexivity|]);
    unfold stored_after; rewrite Heq; cbn.
  - symmetry. apply insert_id, Hrow.
  - reflexivity.
Qed.

Lemma process_task_keeps_rows (json_parser : parse_image_t) (rt : Runtime) (id : string)
    (w : World) (k : string) :
  is_Some (tasks w !! k) → is_Some (tasks (snd (process_task json_parser rt id w)) !! k).
Proof.
  intros Hk. destruct (tasks w !! id) as [t|] eqn:Hrow.
  - rewrite (process_task_found _ _ _ _ _ Hrow).
    destruct (process_task_try json_parser rt id t _) as [[u|e] w1] eqn:Htry; cbn.
    + destruct (process_task_try_ok_inv json_parser rt id t
                  (set_session (fun _ => []) w) w1 u) as (t0 & v & _ & ->);
        [reflexivity | exact Htry |].
      cbn. rewrite lookup_insert. case_decide; [eauto|exact Hk].
    + destruct (process_task_try_raise_tasks _ _ _ _ _ _ _ Htry) as [-> _]. exact Hk.
  - rewrite (process_task_absent _ _ _ _ Hrow). exact Hk.
Qed.

Lemma create_task_keeps_rows (rt : Runtime) (contents : list byte) (w : World) (k : string) :
  is_Some (tasks w !! k) → is_Some (tasks (snd (create_task rt contents w)) !! k).
Proof.
  intros Hk. destruct (create_task rt contents w) as [[resp|e] w'] eqn:Hrun; cbn.
  - destruct (create_task_returns_inv _ _ _ _ _ Hrun) as [Hst Hfresh].
    destruct (create_task_ok rt contents w Hst Hfresh) as (w1 & Heq & Htasks & _).
    rewrite Heq in Hrun. injection Hrun as _ <-. rewrite Htasks.
    rewrite lookup_insert. case_decide; [eauto|exact Hk].
  - destruct (create_task_raises_inv _ _ _ _ _ Hrun) as [-> _]. exact Hk.
Qed.

Lemma serve_all_keeps_rows (calls : list call) (w : World) (k : string) :
  is_Some (tasks w !! k) → is_Some (tasks (serve_all calls w) !! k).
Proof.
  unfold serve_all. revert w. induction calls as [|c calls IH]; intros w Hk; cbn.
  - exact Hk.
  - apply IH. destruct c as [rt contents|json_parser rt id|id]; unfold serve.
    + apply create_task_keeps_rows, Hk.
    + apply process_task_keeps_rows, Hk.
    + rewrite get_task_tasks. exact Hk.
Qed.

(** Every state the service can reach from the empty table satisfies the
    invariant. *)
Lemma serve_all_store_ok (calls : list call) (w : World) :
  store_ok w → store_ok (serve_all calls w).
Proof.
  unfold serve_all. revert w. induction calls as [|c calls IH]; intros w Hinv; cbn.
  - exact Hinv.
  - apply IH. destruct c as [rt contents|json_parser rt id|id]; cbn.
    + apply create_task_store_ok, Hinv.
    + apply process_task_store_ok, Hinv.
    + apply get_task_store_ok, Hinv.
Qed.

Lemma created_row : tasks Scenario.created !! "abc123" = Some Scenario.row.
Proof. vm_compute. reflexivity. Qed.

Lemma offline_fails (out : list string) :
  extraction_fails Scenario.offline Scenario.fake_image out.
Proof. apply (upload_error_fails _ _ _ (Exception "ConnectionError")). reflexivity. Qed.

(** ** The claims *)

(** The processor never lets an error reach its caller. *)
Lemma process_task_returns (json_parser : parse_image_t) (rt : Runtime) (id : string)
    (w : World) :
  fst (process_task json_parser rt id w) = Ok tt.
Proof.
  destruct (tasks w !! id) as [t|] eqn:Hrow.
  - rewrite (process_task_found _ _ _ _ _ Hrow).
    destruct (process_task_try _ _ _ _ _) as [[[]|e] w1]; reflexivity.
  - rewrite (process_task_absent _ _ _ _ Hrow). reflexivity.
Qed.

(** A run whose extraction fails inside the wrapper, with a healthy storage,
    stores the empty object on the row. *)
Lemma process_task_failed_extraction (svc : Services) (rt : Runtime) (id : string)
    (w : World) (t : Task) :
  store_ok w →
  tasks w !! id = Some t →
  extraction_fails svc (image_data t) (stdout w) →
  storage_fails rt = false →
  ∃ w', process_task (parse_image svc) rt id w = (Ok tt, w')
        ∧ tasks w' = <[id := stored_after t (JDict []) (utcnow rt)]> (tasks w).
Proof.
  intros Hinv Hrow Hfail Hst. pose proof (Hinv _ _ Hrow) as Hid.
  destruct (parse_image_of_failure _ _ _ Hfail) as [out Hparse].
  rewrite (process_task_found _ _ _ _ _ Hrow).
  rewrite (process_task_try_commits _ _ _ _ _ (JDict []) out); auto.
  - eexists. split; [reflexivity|]. cbn. rewrite Hid. reflexivity.
  - cbn. rewrite Hid. exact Hrow.
Qed.

(** Only the empty dict equals the empty dict. *)
Lemma py_eqb_empty_dict (v : json) : py_eqb (JDict []) v = true → v = JDict [].
Proof.
  destruct v as [|b|n|q|s|l|d]; cbn; try discriminate.
  destruct d; [reflexivity|discriminate].
Qed.

Lemma stored_after_empty_result (t : Task) (now : Z) :
  extracted_json (stored_after t (JDict []) now) = JDict [].
Proof.
  unfold stored_after. destruct (py_eqb (JDict []) (extracted_json t)) eqn:Heq.
  - apply py_eqb_empty_dict, Heq.
  - reflexivity.
Qed.

Lemma stored_after_columns (t : Task) (v : json) (now : Z) :
  task_id (stored_after t v now) = task_id t
  ∧ image_data (stored_after t v now) = image_data t
  ∧ created_at (stored_after t v now) = created_at t.
Proof. unfold stored_after. destruct (py_eqb v (extracted_json t)); auto. Qed.

Lemma completed_empty_response (t : Task) (now : Z) :
  get_task_response (stored_after t (JDict []) now)
  = [("task_id", JStr (task_id t)); ("status", JStr "completed")].
Proof.
  unfold get_task_response. rewrite stored_after_empty_result.
  destruct (stored_after_columns t (JDict []) now) as [-> _]. reflexivity.
Qed.

(** The scenario of a successful extraction: the poll carries the result
    exactly as the stub returned it. *)
Example poll_after_successful_extraction :
  fst (get_task "abc123"
         (snd (process_task (Scenario.stub_returning Scenario.receipt) Scenario.at_process
                 "abc123" Scenario.created)))
  = Ok [("task_id", JStr "abc123"); ("status", JStr "completed");
        ("extracted_json", Scenario.receipt)].
Proof. vm_compute. reflexivity. Qed.

(** An identifier that was never issued is answered with a 404. *)
Example poll_nonexistent :
  fst (get_task "nonexistent" Scenario.created)
  = Raise (HTTPException 404 "Task not found").
Proof. vm_compute. reflexivity. Qed.

(** C3: for a stored task, the status that [get_task] reports is computed
    from the stored row alone: it is "processing" exactly when the stored
    result is null, and "completed" exactly when a result, possibly empty,
    is stored. *)
Theorem get_task_status_from_stored_state (id : string) (w : World) (t : Task) :
  tasks w !! id = Some t →
  ∃ resp, fst (get_task id w) = Ok resp
          ∧ resp = get_task_response t
          ∧ (dict_get "status" resp = Some (JStr "processing") ↔ extracted_json t = JNone)
          ∧ (dict_get "status" resp = Some (JStr "completed") ↔ extracted_json t ≠ JNone).
Proof.
  intros Hrow. exists (get_task_response t).
  rewrite (get_task_found _ _ _ Hrow), response_status.
  repeat split; try reflexivity;
    destruct (extracted_json t); cbn; congruence.
Qed.

Lemma get_task_status_from_stored_state_witness :
  tasks Scenario.created !! "abc123" = Some Scenario.row
  ∧ ∃ resp, fst (get_task "abc123" Scenario.created) = Ok resp
            ∧ resp = get_task_response Scenario.row
            ∧ (dict_get "status" resp = Some (JStr "processing")
               ↔ extracted_json Scenario.row = JNone)
            ∧ (dict_get "status" resp = Some (JStr "completed")
               ↔ extracted_json Scenario.row ≠ JNone).
Proof.
  split; [vm_compute; reflexivity|].
  apply (get_task_status_from_stored_state "abc123" Scenario.created Scenario.row).
  vm_compute; reflexivity.
Defined.

(** C1, as the code has it: for a stored task, [get_task] puts the stored
    result under "extracted_json" exactly when that result is true in
    Python's sense (not null, and not an empty object, list or string, zero
    or false); in particular, after the processor ran with an extraction
    that fails inside the wrapper and the commit went through, a poll
    answers with the status "completed" and without the field
    "extracted_json". *)
Theorem get_task_payload_iff_truthy (id : string) (w : World) (t : Task) :
  tasks w !! id = Some t →
  ∃ resp, fst (get_task id w) = Ok resp
          ∧ dict_get "extracted_json" resp
            = (if truthy (extracted_json t) then Some (extracted_json t) else None)
          ∧ ∀ svc rt,
              store_ok w →
              extraction_fails svc (image_data t) (stdout w) →
              storage_fails rt = false →
              fst (get_task id (snd (process_task (parse_image svc) rt id w)))
              = Ok [("task_id", JStr id); ("status", JStr "completed")].
Proof.
  intros Hrow. exists (get_task_response t).
  rewrite (get_task_found _ _ _ Hrow). split; [reflexivity|].
  split; [apply response_extracted_json|].
  intros svc rt Hinv Hfail Hst.
  destruct (process_task_failed_extraction svc rt id w t Hinv Hrow Hfail Hst)
    as (w' & Hrun & Htasks).
  rewrite Hrun. change (snd (Ok tt, w')) with w'.
  rewrite (get_task_found id w' (stored_after t (JDict []) (utcnow rt))).
  - rewrite completed_empty_response, (Hinv _ _ Hrow). reflexivity.
  - rewrite Htasks. apply lookup_insert_eq.
Qed.

Lemma get_task_payload_iff_truthy_witness :
  tasks Scenario.created !! "abc123" = Some Scenario.row
  ∧ extraction_fails Scenario.offline (image_data Scenario.row) (stdout Scenario.created)
  ∧ ∃ resp, fst (get_task "abc123" Scenario.created) = Ok resp
            ∧ dict_get "extracted_json" resp = None
            ∧ fst (get_task "abc123" Scenario.after_failed_extraction)
              = Ok [("task_id", JStr "abc123"); ("status", JStr "completed")].
Proof.
  split; [vm_compute; reflexivity|]. split; [exact (offline_fails _)|].
  destruct (get_task_payload_iff_truthy "abc123" Scenario.created Scenario.row)
    as (resp & Hresp & Hfield & Hrun); [vm_compute; reflexivity|].
  exists resp. split; [exact Hresp|]. split; [exact Hfield|].
  apply (Hrun Scenario.offline Scenario.at_process).
  - exact created_store_ok.
  - exact (offline_fails _).
  - reflexivity.
Defined.

(** C1 as stated fails: after the upload, a run of the processor with the
    file host unreachable stores the empty object, so the task is completed
    and its stored result is not null, yet the poll carries no
    "extracted_json" field; with a stub that raises, the poll even answers
    "processing". *)
Lemma poll_after_failed_extraction_omits_payload :
  (extracted_json <$> tasks Scenario.after_failed_extraction !! "abc123") = Some (JDict [])
  ∧ fst (get_task "abc123" Scenario.after_failed_extraction)
    = Ok [("task_id", JStr "abc123"); ("status", JStr "completed")]
  ∧ fst (get_task "abc123" Scenario.after_failed_extraction)
    ≠ Ok [("task_id", JStr "abc123"); ("status", JStr "completed");
          ("extracted_json", JDict [])]
  ∧ fst (get_task "abc123" Scenario.after_raising_stub)
    = Ok [("task_id", JStr "abc123"); ("status", JStr "processing")].
Proof.
  vm_compute. repeat split; try reflexivity. discriminate.
Qed.

(** C2: for an existing task, when the extraction fails inside the wrapper
    (upload error, model call error, unparsable output) while the processor
    runs on it and the storage takes the commit, the processor returns
    normally and the row then holds the empty object: it is the row as it
    was when it already held the empty object (no UPDATE is emitted then),
    and otherwise the row with the empty object and the time of the run;
    every later poll of the task answers normally with the status
    "completed" and nothing else. *)
Theorem failed_extraction_completes_task (svc : Services) (rt : Runtime) (id : string)
    (w : World) (t : Task) :
  store_ok w →
  tasks w !! id = Some t →
  extraction_fails svc (image_data t) (stdout w) →
  storage_fails rt = false →
  ∃ w', process_task (parse_image svc) rt id w = (Ok tt, w')
        ∧ tasks w' !! id
          = Some (if py_eqb (JDict []) (extracted_json t) then t
                  else {| task_id := task_id t; image_data := image_data t;
                          extracted_json := JDict [];
                          created_at := created_at t; updated_at := utcnow rt |})
        ∧ (extracted_json <$> tasks w' !! id) = Some (JDict [])
        ∧ ∀ ids, fst (get_task id (polls ids w'))
                 = Ok [("task_id", JStr id); ("status", JStr "completed")].
Proof.
  intros Hinv Hrow Hfail Hst.
  destruct (process_task_failed_extraction svc rt id w t Hinv Hrow Hfail Hst)
    as (w' & Hrun & Htasks).
  assert (Hrow' : tasks w' !! id = Some (stored_after t (JDict []) (utcnow rt))).
  { rewrite Htasks. apply lookup_insert_eq. }
  exists w'. split; [exact Hrun|]. split; [exact Hrow'|].
  split; [rewrite Hrow'; cbn; rewrite stored_after_empty_result; reflexivity|].
  intros ids. rewrite (get_task_after_polls _ _ _ _ Hrow').
  rewrite completed_empty_response, (Hinv _ _ Hrow). reflexivity.
Qed.

Lemma failed_extraction_completes_task_witness :
  ∃ w', process_task (parse_image Scenario.offline) Scenario.at_process "abc123"
          Scenario.created = (Ok tt, w')
        ∧ tasks w' !! "abc123"
          = Some (if py_eqb (JDict []) (extracted_json Scenario.row) then Scenario.row
                  else {| task_id := task_id Scenario.row;
                          image_data := image_data Scenario.row;
                          extracted_json := JDict [];
                          created_at := created_at Scenario.row; updated_at := 2000 |})
        ∧ (extracted_json <$> tasks w' !! "abc123") = Some (JDict [])
        ∧ ∀ ids, fst (get_task "abc123" (polls ids w'))
                 = Ok [("task_id", JStr "abc123"); ("status", JStr "completed")].
Proof.
  apply (failed_extraction_completes_task Scenario.offline Scenario.at_process "abc123"
           Scenario.created Scenario.row).
  - exact created_store_ok.
  - vm_compute; reflexivity.
  - exact (offline_fails _).
  - reflexivity.
Defined.

(** A second failed run, on the row that already holds the empty object,
    emits no UPDATE: the row keeps the time of the first run. *)
Example second_failed_extraction_keeps_time :
  (updated_at <$> tasks Scenario.after_failed_extraction !! "abc123") = Some 2000
  ∧ (updated_at <$>
       tasks (snd (process_task (parse_image Scenario.offline) Online.at_second_create
                     "abc123" Scenario.after_failed_extraction)) !! "abc123")
    = Some 2000.
Proof. vm_compute. split; reflexivity. Qed.

(** C4: run on an identifier that is not in the table, the processor prints
    one line and returns normally; the table, the scheduled work and the
    session are as before. *)
Theorem process_task_absent_is_noop (json_parser : parse_image_t) (rt : Runtime)
    (id : string) (w : World) :
  tasks w !! id = None →
  ∃ w', process_task json_parser rt id w = (Ok tt, w')
        ∧ tasks w' = tasks w
        ∧ stdout w' = stdout w ++ ["Task " +:+ id +:+ " not found"]
        ∧ background_tasks w' = background_tasks w
        ∧ trace w' = trace w
        ∧ session w' = [].
Proof.
  intros Hrow. rewrite (process_task_absent _ _ _ _ Hrow).
  eexists. split; [reflexivity|]. repeat split.
Qed.

Lemma process_task_absent_is_noop_witness :
  tasks Scenario.created !! "nonexistent" = None
  ∧ ∃ w', process_task Scenario.stub_raising Scenario.at_process "nonexistent"
            Scenario.created = (Ok tt, w')
          ∧ tasks w' = tasks Scenario.created
          ∧ stdout w' = stdout Scenario.created ++ ["Task " +:+ "nonexistent" +:+ " not found"]
          ∧ background_tasks w' = background_tasks Scenario.created
          ∧ trace w' = trace Scenario.created
          ∧ session w' = [].
Proof.
  split; [vm_compute; reflexivity|].
  apply (process_task_absent_is_noop Scenario.stub_raising Scenario.at_process
           "nonexistent" Scenario.created).
  vm_compute; reflexivity.
Defined.

(** C5, as the code has it: when an error is raised inside the inner [try]
    block of the processor (the extraction, the assignment and the commit)
    for an existing task, the processor prints the error, rolls the session
    back and returns normally; it writes no result, so the table is as it
    was before the run. *)
Theorem process_task_error_rolls_back (json_parser : parse_image_t) (rt : Runtime)
    (id : string) (w w1 : World) (t : Task) (e : exn) :
  tasks w !! id = Some t →
  process_task_try json_parser rt id t (set_session (fun _ => []) w) = (Raise e, w1) →
  ∃ w', process_task json_parser rt id w = (Ok tt, w')
        ∧ session w' = []
        ∧ stdout w' = stdout w1 ++ [error_line id e]
        ∧ tasks w' = tasks w
        ∧ tasks w' !! id = Some t.
Proof.
  intros Hrow Htry.
  rewrite (process_task_found _ _ _ _ _ Hrow), Htry.
  destruct (process_task_try_raise_tasks _ _ _ _ _ _ _ Htry) as [Htasks _].
  eexists. split; [reflexivity|]. cbn. rewrite Htasks. cbn. auto.
Qed.

Lemma process_task_error_rolls_back_witness :
  ∃ w', process_task Scenario.stub_raising Scenario.at_process "abc123" Scenario.created
        = (Ok tt, w')
        ∧ session w' = []
        ∧ stdout w' = [] ++ [error_line "abc123" (Exception "boom")]
        ∧ tasks w' = tasks Scenario.created
        ∧ tasks w' !! "abc123" = Some Scenario.row.
Proof.
  apply (process_task_error_rolls_back Scenario.stub_raising Scenario.at_process "abc123"
           Scenario.created
           (set_stdout (fun _ => [])
              (log_event (EvParseImage "abc123")
                 (set_session (fun _ => []) Scenario.created)))
           Scenario.row (Exception "boom")).
  - vm_compute; reflexivity.
  - apply process_task_try_parser_raises. reflexivity.
Defined.

(** C5 as stated fails: with a stub that raises, the error is raised inside
    the inner [try] block, and after the run the stored result is still
    null, not the empty object. *)
Lemma raising_stub_stores_no_result :
  fst (process_task_try Scenario.stub_raising Scenario.at_process "abc123" Scenario.row
         (set_session (fun _ => []) Scenario.created))
  = Raise (Exception "boom")
  ∧ stdout Scenario.after_raising_stub = ["Error processing task abc123: boom"]
  ∧ (extracted_json <$> tasks Scenario.after_raising_stub !! "abc123") = Some JNone
  ∧ (extracted_json <$> tasks Scenario.after_raising_stub !! "abc123") ≠ Some (JDict []).
Proof.
  vm_compute. repeat split; try reflexivity. discriminate.
Qed.

(** C6: when the extraction returns and the storage refuses the commit
    while the processor runs on an existing task, the table is left as it
    was; a task that had no result still has none, and every later poll
    keeps answering "processing". *)
Theorem failed_commit_leaves_task_processing (json_parser : parse_image_t) (rt : Runtime)
    (id : string) (w : World) (t : Task) (v : json) (out : list string) :
  tasks w !! id = Some t →
  json_parser (image_data t) (stdout w) = (Ok v, out) →
  storage_fails rt = true →
  ∃ w', process_task json_parser rt id w = (Ok tt, w')
        ∧ tasks w' = tasks w
        ∧ session w' = []
        ∧ (extracted_json t = JNone →
           ∀ ids, fst (get_task id (polls ids w'))
                  = Ok [("task_id", JStr (task_id t)); ("status", JStr "processing")]).
Proof.
  intros Hrow Hparse Hst.
  rewrite (process_task_found _ _ _ _ _ Hrow).
  rewrite (process_task_try_commit_fails _ _ _ _ _ v out); auto.
  eexists. split; [reflexivity|]. split; [reflexivity|]. split; [reflexivity|].
  intros Hnone ids. rewrite (get_task_after_polls _ _ _ t); [|exact Hrow].
  unfold get_task_response. rewrite Hnone. reflexivity.
Qed.

Lemma failed_commit_leaves_task_processing_witness :
  ∃ w', process_task (Scenario.stub_returning Scenario.receipt) Scenario.storage_down
          "abc123" Scenario.created = (Ok tt, w')
        ∧ tasks w' = tasks Scenario.created
        ∧ session w' = []
        ∧ (extracted_json Scenario.row = JNone →
           ∀ ids, fst (get_task "abc123" (polls ids w'))
                  = Ok [("task_id", JStr (task_id Scenario.row));
                        ("status", JStr "processing")]).
Proof.
  apply (failed_commit_leaves_task_processing (Scenario.stub_returning Scenario.receipt)
           Scenario.storage_down "abc123" Scenario.created Scenario.row
           Scenario.receipt []).
  - vm_compute; reflexivity.
  - reflexivity.
  - reflexivity.
Defined.

(** C7: a run of the processor on [id] leaves every other row of the table
    untouched and creates or deletes no row; on the row of [id] it keeps
    [task_id], [image_data] and [created_at], so that only the result and
    [updated_at] can differ. *)
Theorem process_task_frame (json_parser : parse_image_t) (rt : Runtime) (id : string)
    (w : World) :
  store_ok w →
  (∀ k, k ≠ id → tasks (snd (process_task json_parser rt id w)) !! k = tasks w !! k)
  ∧ (∀ t, tasks w !! id = Some t →
          ∃ t', tasks (snd (process_task json_parser rt id w)) !! id = Some t'
                ∧ task_id t' = task_id t
                ∧ image_data t' = image_data t
                ∧ created_at t' = created_at t)
  ∧ (tasks w !! id = None →
     tasks (snd (process_task json_parser rt id w)) !! id = None).
Proof.
  intros Hinv. destruct (tasks w !! id) as [t|] eqn:Hrow.
  - destruct (process_task_tasks json_parser rt id w t Hinv Hrow) as [Heq|[v Heq]];
      rewrite Heq.
    + repeat split; try done. intros t' [= <-]. exists t. auto.
    + repeat split; try done.
      * intros k Hk. apply lookup_insert_ne. congruence.
      * intros t' [= <-]. eexists. rewrite lookup_insert_eq. split; [reflexivity|].
        cbn. auto.
  - rewrite (process_task_absent _ _ _ _ Hrow). cbn.
    repeat split; try done.
Qed.

Lemma process_task_frame_witness :
  let w' := snd (process_task (Scenario.stub_returning Scenario.receipt)
                   Scenario.at_process "abc123" Scenario.created) in
  (∀ k, k ≠ "abc123" → tasks w' !! k = tasks Scenario.created !! k)
  ∧ (∀ t, tasks Scenario.created !! "abc123" = Some t →
          ∃ t', tasks w' !! "abc123" = Some t'
                ∧ task_id t' = task_id t
                ∧ image_data t' = image_data t
                ∧ created_at t' = created_at t)
  ∧ (tasks Scenario.created !! "abc123" = None → tasks w' !! "abc123" = None).
Proof.
  apply (process_task_frame (Scenario.stub_returning Scenario.receipt)
           Scenario.at_process "abc123" Scenario.created).
  exact created_store_ok.
Defined.

(** C8: whenever [create_task] answers, its answer is the new identifier,
    the new row is in the table with no result, and the effects it added
    are the commit followed by the scheduling of the processor (when a
    [BackgroundTasks] object is there), with no extraction among them and
    nothing printed: the handler hands the processor over and does not run
    it.  Whenever [create_task] raises instead, nothing has been
    scheduled. *)
Theorem create_task_commits_then_schedules (rt : Runtime) (contents : list byte)
    (w w' : World) (r : result pydict) :
  create_task rt contents w = (r, w') →
  match r with
  | Ok resp =>
      resp = [("task_id", JStr (uuid4 rt))]
      ∧ tasks w' !! uuid4 rt = Some (new_task rt contents)
      ∧ trace w' = trace w ++ EvCommit ::
                     match background_tasks w with
                     | Some _ => [EvAddTask (uuid4 rt)]
                     | None => []
                     end
      ∧ background_tasks w' = (fun queue => queue ++ [uuid4 rt]) <$> background_tasks w
      ∧ stdout w' = stdout w
  | Raise e =>
      trace w' = trace w ∧ background_tasks w' = background_tasks w ∧ tasks w' = tasks w
  end.
Proof.
  intros Hrun. destruct r as [resp|e].
  - destruct (create_task_returns_inv _ _ _ _ _ Hrun) as [Hst Hfresh].
    destruct (create_task_ok rt contents w Hst Hfresh)
      as (w1 & Heq & Htasks & Htrace & Hbg & Hout & _).
    rewrite Heq in Hrun. injection Hrun as <- <-.
    split; [reflexivity|]. split; [rewrite Htasks; apply lookup_insert_eq|]. auto.
  - destruct (create_task_raises_inv _ _ _ _ _ Hrun) as (Htasks & Htrace & Hbg & _). auto.
Qed.

Lemma create_task_commits_then_schedules_witness :
  [("task_id", JStr "abc123")] = [("task_id", JStr "abc123")]
  ∧ tasks Scenario.created !! "abc123" = Some Scenario.row
  ∧ trace Scenario.created = [] ++ [EvCommit; EvAddTask "abc123"]
  ∧ background_tasks Scenario.created = (fun queue => queue ++ ["abc123"]) <$> Some []
  ∧ stdout Scenario.created = [].
Proof.
  apply (create_task_commits_then_schedules Scenario.at_create Scenario.fake_image
           Scenario.world0 Scenario.created (Ok [("task_id", JStr "abc123")])).
  vm_compute; reflexivity.
Defined.

(** C9: with a healthy storage and a generated identifier that is not in
    the table, [create_task] answers with that identifier; whenever it
    answers, the identifier was not in the table before, the table now holds
    under it a row with the uploaded bytes and no result, and an immediate
    poll of it answers "processing"; and the identifier differs from every
    identifier that an earlier [create_task] of the same history answered
    with. *)
Theorem create_task_persists_fresh_task (rt : Runtime) (contents : list byte) (w : World) :
  (storage_fails rt = false → tasks w !! uuid4 rt = None →
   ∃ w', create_task rt contents w = (Ok [("task_id", JStr (uuid4 rt))], w'))
  ∧ (∀ resp w',
       create_task rt contents w = (Ok resp, w') →
       resp = [("task_id", JStr (uuid4 rt))]
       ∧ tasks w !! uuid4 rt = None
       ∧ tasks w' !! uuid4 rt
         = Some {| task_id := uuid4 rt; image_data := contents; extracted_json := JNone;
                   created_at := utcnow_created rt; updated_at := utcnow rt |}
       ∧ fst (get_task (uuid4 rt) w')
         = Ok [("task_id", JStr (uuid4 rt)); ("status", JStr "processing")]
       ∧ ∀ rt0 contents0 w0 resp0 w1 calls,
           create_task rt0 contents0 w0 = (Ok resp0, w1) →
           w = serve_all calls w1 →
           uuid4 rt ≠ uuid4 rt0).
Proof.
  split.
  - intros Hst Hfresh.
    destruct (create_task_ok rt contents w Hst Hfresh) as (w' & Heq & _). eauto.
  - intros resp w' Hrun.
    destruct (create_task_returns_inv _ _ _ _ _ Hrun) as [Hst Hfresh].
    destruct (create_task_ok rt contents w Hst Hfresh) as (w1 & Heq & Htasks & _).
    rewrite Heq in Hrun. injection Hrun as <- <-.
    assert (Hrow : tasks w1 !! uuid4 rt = Some (new_task rt contents)).
    { rewrite Htasks. apply lookup_insert_eq. }
    split; [reflexivity|]. split; [exact Hfresh|]. split; [exact Hrow|].
    split; [rewrite (get_task_found _ _ _ Hrow); reflexivity|].
    intros rt0 contents0 w0 resp0 w2 calls Hrun0 -> Heq_id.
    destruct (create_task_returns_inv _ _ _ _ _ Hrun0) as [Hst0 Hfresh0].
    destruct (create_task_ok rt0 contents0 w0 Hst0 Hfresh0) as (w3 & Heq0 & Htasks0 & _).
    rewrite Heq0 in Hrun0. injection Hrun0 as _ <-.
    assert (Hissued : is_Some (tasks (serve_all calls w3) !! uuid4 rt0)).
    { apply serve_all_keeps_rows. rewrite Htasks0, lookup_insert_eq. eauto. }
    rewrite <- Heq_id, Hfresh in Hissued. destruct Hissued as [? [=]].
Qed.

Lemma create_task_persists_fresh_task_witness :
  (∃ w', create_task Scenario.at_create Scenario.fake_image Scenario.world0
         = (Ok [("task_id", JStr "abc123")], w'))
  ∧ tasks Scenario.world0 !! "abc123" = None
  ∧ tasks Scenario.created !! "abc123" = Some Scenario.row
  ∧ fst (get_task "abc123" Scenario.created)
    = Ok [("task_id", JStr "abc123"); ("status", JStr "processing")].
Proof.
  destruct (create_task_persists_fresh_task Scenario.at_create Scenario.fake_image
              Scenario.world0) as [Hanswers Hstate].
  split; [apply Hanswers; vm_compute; reflexivity|].
  destruct (Hstate [("task_id", JStr "abc123")] Scenario.created)
    as (_ & Hfresh & Hrow & Hpoll & _); [vm_compute; reflexivity|].
  auto.
Defined.

(** C10: for every image, [JsonParser.parse_image] returns a value and never
    raises; whenever its [try] block raises it returns the empty dict, which
    is the case when the upload request raises, when the model call raises,
    and when [json.loads] rejects the model output. *)
Theorem parse_image_never_raises (svc : Services) (image : list byte) (out : list string) :
  (∃ v out', parse_image svc image out = (Ok v, out'))
  ∧ (extraction_fails svc image out → fst (parse_image svc image out) = Ok (JDict []))
  ∧ ((∃ e, requests_post svc "https://tmpfiles.org/api/v1/upload" "receipt.jpg" image
           = Raise e) →
     fst (parse_image svc image out) = Ok (JDict []))
  ∧ ((∀ url, ∃ e, chat_completions_create svc "Qwen/Qwen2-VL-72B-Instruct" (PROMPT svc) url
                  = Raise e) →
     fst (parse_image svc image out) = Ok (JDict []))
  ∧ ((∀ text, ∃ e, json_loads svc text = Raise e) →
     fst (parse_image svc image out) = Ok (JDict [])).
Proof.
  assert (Hfail : extraction_fails svc image out →
                  fst (parse_image svc image out) = Ok (JDict [])).
  { intros Hf. destruct (parse_image_of_failure _ _ _ Hf) as [out' ->]. reflexivity. }
  split; [apply parse_image_returns|]. split; [exact Hfail|].
  split; [|split].
  - intros [e He]. apply Hfail. exact (upload_error_fails _ _ _ _ He).
  - intros Hchat. apply Hfail, model_error_fails, Hchat.
  - intros Hloads. apply Hfail, unparsable_output_fails, Hloads.
Qed.

Lemma parse_image_never_raises_witness :
  extraction_fails Scenario.offline Scenario.fake_image []
  ∧ fst (parse_image Scenario.offline Scenario.fake_image []) = Ok (JDict []).
Proof.
  split; [exact (offline_fails [])|].
  destruct (parse_image_never_raises Scenario.offline Scenario.fake_image [])
    as (_ & Hfail & _).
  apply Hfail. exact (offline_fails []).
Defined.


(** ** Further properties of the code *)

(** *** [str.replace] as the wrapper uses it *)

Import Stdlib.Strings.Ascii.

Lemma append_cons (c : Ascii.ascii) (s r : string) :
  String c s +:+ r = String c (s +:+ r).
Proof. reflexivity. Qed.

Lemma replace_scan_skip (old new p r : string) :
  replace_scan old new (String.length p) (p +:+ r) = replace_scan old new O r.
Proof.
  induction p as [|c p IH]; [reflexivity|].
  rewrite append_cons. cbn. exact IH.
Qed.

Lemma str_startswith_app (p r : string) : str_startswith p (p +:+ r) = true.
Proof.
  induction p as [|c p IH]; [reflexivity|].
  rewrite append_cons. cbn. rewrite Ascii.eqb_refl. exact IH.
Qed.

(** A match at the head is replaced and the scan goes on behind it. *)
Lemma str_replace_prefix (old new r : string) :
  old ≠ "" →
  str_replace old new (old +:+ r) = new +:+ str_replace old new r.
Proof.
  destruct old as [|a o]; [congruence|]. intros _.
  unfold str_replace. rewrite append_cons.
  change (replace_scan (String a o) new 0 (String a (o +:+ r)))
    with (if str_startswith (String a o) (String a (o +:+ r))
          then new +:+ replace_scan (String a o) new (String.length o) (o +:+ r)
          else String a (replace_scan (String a o) new 0 (o +:+ r))).
  rewrite <- append_cons, str_startswith_app, replace_scan_skip. reflexivity.
Qed.

(** Without a match at the head, the first character is kept. *)
Lemma str_replace_nomatch (old new : string) (c : Ascii.ascii) (s : string) :
  old ≠ "" →
  str_startswith old (String c s) = false →
  str_replace old new (String c s) = String c (str_replace old new s).
Proof.
  destruct old as [|a o]; [congruence|]. intros _ Hno.
  unfold str_replace.
  change (replace_scan (String a o) new 0 (String c s))
    with (if str_startswith (String a o) (String c s)
          then new +:+ replace_scan (String a o) new (String.length o) s
          else String c (replace_scan (String a o) new 0 s)).
  rewrite Hno. reflexivity.
Qed.

Lemma str_contains_cons (old : string) (c : Ascii.ascii) (s : string) :
  str_contains old (String c s) = false →
  str_startswith old (String c s) = false ∧ str_contains old s = false.
Proof.
  change (str_contains old (String c s))
    with (str_startswith old (String c s) || str_contains old s).
  apply orb_false_elim.
Qed.

Lemma str_startswith_cons (a c : Ascii.ascii) (p s : string) :
  str_startswith (String a p) (String c s) = Ascii.eqb a c && str_startswith p s.
Proof. reflexivity. Qed.

(** A text in which [old] does not occur is left as it is by [replace]. *)
Lemma str_replace_absent (old new s : string) :
  old ≠ "" →
  str_contains old s = false →
  str_replace old new s = s.
Proof.
  intros Hold. induction s as [|c s IH]; intros Hno.
  - destruct old; [congruence|reflexivity].
  - destruct (str_contains_cons _ _ _ Hno) as [Hhead Htail].
    rewrite (str_replace_nomatch _ _ _ _ Hold Hhead), (IH Htail). reflexivity.
Qed.

Lemma str_startswith_longer (p q s : string) :
  str_startswith p s = false → str_startswith (p +:+ q) s = false.
Proof.
  revert s. induction p as [|a p IH]; intros s; [discriminate|].
  rewrite append_cons. destruct s as [|c s]; [reflexivity|].
  rewrite !str_startswith_cons. destruct (Ascii.eqb a c); [apply IH|reflexivity].
Qed.

Lemma str_contains_longer (p q s : string) :
  str_contains p s = false → str_contains (p +:+ q) s = false.
Proof.
  induction s as [|c s IH].
  - cbn. rewrite !orb_false_r. apply str_startswith_longer.
  - intros Hno. destruct (str_contains_cons _ _ _ Hno) as [Hhead Htail].
    change (str_contains (p +:+ q) (String c s))
      with (str_startswith (p +:+ q) (String c s) || str_contains (p +:+ q) s).
    rewrite (str_startswith_longer _ _ _ Hhead), (IH Htail). reflexivity.
Qed.

(** X1: a model output that contains no code fence reaches [json.loads]
    exactly as the model wrote it: the clean-up of [parse_image] leaves it
    unchanged. *)
Theorem strip_unfenced_answer (text : string) :
  str_contains "```" text = false →
  str_replace "```" "" (str_replace "```json" "" text) = text.
Proof.
  intros Hno.
  rewrite (str_replace_absent "```json" "" text).
  - apply str_replace_absent; [discriminate|exact Hno].
  - discriminate.
  - exact (str_contains_longer "```" "json" text Hno).
Qed.

Lemma strip_unfenced_answer_witness :
  str_contains "```" "[12, 5]" = false
  ∧ str_replace "```" "" (str_replace "```json" "" "[12, 5]") = "[12, 5]".
Proof.
  split; [reflexivity|]. apply (strip_unfenced_answer "[12, 5]"). reflexivity.
Defined.

Lemma no_backtick_head (c : Ascii.ascii) (s : string) :
  str_contains "`" (String c s) = false →
  Ascii.eqb "`"%char c = false ∧ str_contains "`" s = false.
Proof.
  intros Hno. destruct (str_contains_cons _ _ _ Hno) as [Hhead Htail].
  split; [|exact Htail].
  rewrite str_startswith_cons, andb_true_r in Hhead. exact Hhead.
Qed.

Lemma strip_json_fence_body (body : string) :
  str_contains "`" body = false →
  str_replace "```json" "" (body +:+ "```") = body +:+ "```".
Proof.
  induction body as [|c body IH]; intros Hno; [reflexivity|].
  destruct (no_backtick_head _ _ Hno) as [Hc Htail].
  rewrite append_cons, str_replace_nomatch, (IH Htail); [reflexivity|discriminate|].
  rewrite str_startswith_cons, Hc. reflexivity.
Qed.

Lemma strip_fence_body (body : string) :
  str_contains "`" body = false →
  str_replace "```" "" (body +:+ "```") = body.
Proof.
  induction body as [|c body IH]; intros Hno; [reflexivity|].
  destruct (no_backtick_head _ _ Hno) as [Hc Htail].
  rewrite append_cons, str_replace_nomatch, (IH Htail); [reflexivity|discriminate|].
  rewrite str_startswith_cons, Hc. reflexivity.
Qed.

(** X2: the clean-up that [parse_image] applies to the model output unwraps
    a fenced answer: a text made of the opening fence with the language tag,
    a body without backticks and the closing fence is reduced to the
    body. *)
Theorem strip_fenced_answer (body : string) :
  str_contains "`" body = false →
  str_replace "```" "" (str_replace "```json" "" ("```json" +:+ (body +:+ "```"))) = body.
Proof.
  intros Hno.
  rewrite str_replace_prefix by discriminate.
  change ("" +:+ ?x) with x.
  rewrite (strip_json_fence_body _ Hno). apply strip_fence_body, Hno.
Qed.

Lemma strip_fenced_answer_witness :
  str_contains "`" "[12, 5]" = false
  ∧ str_replace "```" "" (str_replace "```json" "" ("```json" +:+ ("[12, 5]" +:+ "```")))
    = "[12, 5]".
Proof.
  split; [reflexivity|]. apply (strip_fenced_answer "[12, 5]"). reflexivity.
Defined.

Lemma dl_url_tail (path : string) :
  str_contains "tmpfiles.org" path = false →
  str_replace "tmpfiles.org" "tmpfiles.org/dl" ("tmpfiles.org" +:+ ("/" +:+ path))
  = "tmpfiles.org/dl" +:+ ("/" +:+ path).
Proof.
  intros Hno. rewrite str_replace_prefix by discriminate.
  change ("/" +:+ path) with (String "/"%char path).
  rewrite str_replace_nomatch; [|discriminate|reflexivity].
  rewrite (str_replace_absent "tmpfiles.org" "tmpfiles.org/dl" path); [reflexivity| |exact Hno].
  discriminate.
Qed.

(** The rewriting of the upload URL: a page URL of the file host whose path
    does not contain the host name again becomes the direct download URL on
    the same path. *)
Lemma download_url_of_page_url (path : string) :
  str_contains "tmpfiles.org" path = false →
  str_replace "tmpfiles.org" "tmpfiles.org/dl" ("https://tmpfiles.org/" +:+ path)
  = "https://tmpfiles.org/dl/" +:+ path.
Proof.
  intros Hno.
  change ("https://tmpfiles.org/" +:+ path)
    with (String "h"%char (String "t"%char (String "t"%char (String "p"%char (String "s"%char (String ":"
           (String "/"%char (String "/"%char ("tmpfiles.org" +:+ ("/" +:+ path)))))))))).
  do 8 (rewrite str_replace_nomatch; [|discriminate|reflexivity]).
  rewrite (dl_url_tail _ Hno). reflexivity.
Qed.

(** *** The upload and the extraction wrapper *)

Lemma parse_image_fst_of_failure (svc : Services) (image : list byte) (out : list string) :
  extraction_fails svc image out → fst (parse_image svc image out) = Ok (JDict []).
Proof.
  intros Hf. destruct (parse_image_of_failure _ _ _ Hf) as [out' ->]. reflexivity.
Qed.

Lemma upload_raise_fails (svc : Services) (image : list byte) (out out' : list string)
    (e : exn) :
  _upload_to_tmpfiles svc image out = (Raise e, out') → extraction_fails svc image out.
Proof.
  intros Hup. unfold extraction_fails, parse_image_try. unfold bind at 1.
  rewrite Hup. eauto.
Qed.

Lemma raise_for_status_ok (resp : HttpResponse) :
  status_code resp < 400 → raise_for_status resp = Ok tt.
Proof.
  intros Hlt. unfold raise_for_status.
  replace (400 <=? status_code resp) with false by (symmetry; apply Z.leb_gt; lia).
  replace (500 <=? status_code resp) with false by (symmetry; apply Z.leb_gt; lia).
  reflexivity.
Qed.

Lemma raise_for_status_error (resp : HttpResponse) :
  400 ≤ status_code resp < 600 → ∃ e, raise_for_status resp = Raise e.
Proof.
  intros [Hlo Hhi]. unfold raise_for_status.
  replace (400 <=? status_code resp) with true by (symmetry; apply Z.leb_le; lia).
  replace (status_code resp <? 600) with true by (symmetry; apply Z.ltb_lt; lia).
  destruct (Z.ltb_spec (status_code resp) 500) as [Hlt|Hge]; cbn; [eauto|].
  replace (500 <=? status_code resp) with true by (symmetry; apply Z.leb_le; lia).
  cbn. eauto.
Qed.

(** X3: whatever goes wrong in [_upload_to_tmpfiles] reaches the caller
    as an [Exception] whose message is "Failed to upload image to
    tmpfiles.org: " followed by the text of the error of the step that
    failed: the error the request raised, the [HTTPError] of
    [raise_for_status], the error of [response.json()], the [KeyError] or
    [TypeError] of a subscript, or the [AttributeError] of [replace];
    nothing has been printed then. *)
Theorem upload_error_is_wrapped (svc : Services) (image : list byte)
    (out out' : list string) (e : exn) :
  _upload_to_tmpfiles svc image out = (Raise e, out') →
  out' = out
  ∧ ∃ cause, upload_cause svc image cause
             ∧ e = Exception ("Failed to upload image to tmpfiles.org: " +:+ exn_str cause).
Proof.
  unfold _upload_to_tmpfiles. unfold_py. unfold print_line.
  destruct (requests_post svc _ _ image) as [resp|e0] eqn:Hpost;
    [|intros [= <- <-]; eauto using CauseRequest].
  destruct (raise_for_status resp) as [[]|e0] eqn:Hstatus;
    [|intros [= <- <-]; eauto using CauseStatus].
  destruct (response_json resp) as [body|e0] eqn:Hjson;
    [|intros [= <- <-]; eauto using CauseJson].
  destruct (getitem body "data") as [data|e0] eqn:Hdata;
    [|intros [= <- <-]; eauto using CauseData].
  destruct (getitem data "url") as [file_url|e0] eqn:Hurl;
    [|intros [= <- <-]; eauto using CauseUrl].
  destruct (method_replace file_url _ _) as [u|e0] eqn:Hreplace;
    [|intros [= <- <-]; eauto using CauseReplace].
  intros [=].
Qed.

Lemma upload_error_is_wrapped_witness :
  _upload_to_tmpfiles Online.host_error Scenario.fake_image []
  = (Raise (Exception ("Failed to upload image to tmpfiles.org: "
                       +:+ "503 Server Error: Service Unavailable for url: "
                       +:+ "https://tmpfiles.org/api/v1/upload")), [])
  ∧ ∃ cause, upload_cause Online.host_error Scenario.fake_image cause
             ∧ Exception ("Failed to upload image to tmpfiles.org: "
                          +:+ "503 Server Error: Service Unavailable for url: "
                          +:+ "https://tmpfiles.org/api/v1/upload")
               = Exception ("Failed to upload image to tmpfiles.org: " +:+ exn_str cause).
Proof.
  split; [vm_compute; reflexivity|].
  apply (upload_error_is_wrapped Online.host_error Scenario.fake_image [] []
           (Exception ("Failed to upload image to tmpfiles.org: "
                       +:+ "503 Server Error: Service Unavailable for url: "
                       +:+ "https://tmpfiles.org/api/v1/upload"))).
  vm_compute; reflexivity.
Defined.

(** X4: when the file host accepts the upload and answers with a JSON body
    whose [data.url] is a page URL [https://tmpfiles.org/<path>] (the path
    not containing the host name again), [_upload_to_tmpfiles] prints and
    returns the direct download URL [https://tmpfiles.org/dl/<path>]. *)
Theorem upload_returns_download_url (svc : Services) (image : list byte)
    (out : list string) (resp : HttpResponse) (body data : pydict) (path : string) :
  requests_post svc "https://tmpfiles.org/api/v1/upload" "receipt.jpg" image = Ok resp →
  status_code resp < 400 →
  response_json resp = Ok (JDict body) →
  dict_get "data" body = Some (JDict data) →
  dict_get "url" data = Some (JStr ("https://tmpfiles.org/" +:+ path)) →
  str_contains "tmpfiles.org" path = false →
  _upload_to_tmpfiles svc image out
  = (Ok ("https://tmpfiles.org/dl/" +:+ path),
     out ++ ["https://tmpfiles.org/dl/" +:+ path]).
Proof.
  intros Hpost Hstatus Hjson Hdata Hurl Hpath.
  unfold _upload_to_tmpfiles. unfold_py. unfold print_line.
  rewrite Hpost, (raise_for_status_ok _ Hstatus).
  cbn. rewrite Hjson. cbn. rewrite Hdata. cbn. rewrite Hurl. cbn -[str_replace].
  rewrite (download_url_of_page_url _ Hpath). reflexivity.
Qed.

Lemma upload_returns_download_url_witness :
  _upload_to_tmpfiles Online.svc Scenario.fake_image []
  = (Ok ("https://tmpfiles.org/dl/" +:+ "123/receipt.jpg"),
     [] ++ ["https://tmpfiles.org/dl/" +:+ "123/receipt.jpg"]).
Proof.
  apply (upload_returns_download_url Online.svc Scenario.fake_image [] Online.upload_answer
           [("status", JStr "success");
            ("data", JDict [("url", JStr "https://tmpfiles.org/123/receipt.jpg")])]
           [("url", JStr "https://tmpfiles.org/123/receipt.jpg")]
           "123/receipt.jpg"); reflexivity.
Defined.

(** X5: when the upload gives a URL, the model call for that URL answers,
    its first choice carries a text, and [json.loads] accepts that text once
    the code fences are removed, [parse_image] returns exactly the value of
    [json.loads] and prints nothing beyond what the upload printed. *)
Theorem parse_image_returns_parsed_answer (svc : Services) (image : list byte)
    (out out1 : list string) (url text : string) (response : ChatCompletion)
    (choice : Choice) (others : list Choice) (v : json) :
  _upload_to_tmpfiles svc image out = (Ok url, out1) →
  chat_completions_create svc "Qwen/Qwen2-VL-72B-Instruct" (PROMPT svc) url = Ok response →
  choices response = choice :: others →
  message_content choice = Some text →
  json_loads svc (str_replace "```" "" (str_replace "```json" "" text)) = Ok v →
  parse_image svc image out = (Ok v, out1).
Proof.
  intros Hup Hchat Hchoices Htext Hloads.
  rewrite parse_image_cases. unfold parse_image_try. unfold bind at 1. rewrite Hup.
  unfold_py. rewrite Hchat, Hchoices. cbn -[str_replace]. rewrite Htext, Hloads.
  reflexivity.
Qed.

Lemma parse_image_returns_parsed_answer_witness :
  parse_image Online.svc Scenario.fake_image []
  = (Ok Online.parsed, ["https://tmpfiles.org/dl/123/receipt.jpg"]).
Proof.
  apply (parse_image_returns_parsed_answer Online.svc Scenario.fake_image []
           ["https://tmpfiles.org/dl/123/receipt.jpg"]
           "https://tmpfiles.org/dl/123/receipt.jpg" "```json[12, 5]```"
           Online.model_answer {| message_content := Some "```json[12, 5]```" |} []
           Online.parsed); reflexivity.
Defined.

(** X6: answers of the services that are no errors of the transport still
    end in the empty dict: an HTTP error status of the file host, an upload
    body without the key [data], a model answer with no choice, and a first
    choice without text. *)
Theorem parse_image_degenerate_answers (svc : Services) (image : list byte)
    (out : list string) :
  (∀ resp,
     requests_post svc "https://tmpfiles.org/api/v1/upload" "receipt.jpg" image = Ok resp →
     400 ≤ status_code resp < 600 →
     fst (parse_image svc image out) = Ok (JDict []))
  ∧ (∀ resp body,
       requests_post svc "https://tmpfiles.org/api/v1/upload" "receipt.jpg" image = Ok resp →
       response_json resp = Ok (JDict body) →
       dict_get "data" body = None →
       fst (parse_image svc image out) = Ok (JDict []))
  ∧ (∀ url out1 response,
       _upload_to_tmpfiles svc image out = (Ok url, out1) →
       chat_completions_create svc "Qwen/Qwen2-VL-72B-Instruct" (PROMPT svc) url
       = Ok response →
       (choices response = []
        ∨ ∃ choice others, choices response = choice :: others
                           ∧ message_content choice = None) →
       fst (parse_image svc image out) = Ok (JDict [])).
Proof.
  split; [|split].
  - intros resp Hpost [Hlo Hhi]. apply parse_image_fst_of_failure.
    destruct (_upload_to_tmpfiles svc image out) as [[url|e] out1] eqn:Hup;
      [|exact (upload_raise_fails _ _ _ _ _ Hup)].
    revert Hup. unfold _upload_to_tmpfiles. unfold_py. rewrite Hpost.
    destruct (raise_for_status_error resp (conj Hlo Hhi)) as [e0 ->].
    cbn. intros [=].
  - intros resp body Hpost Hjson Hdata. apply parse_image_fst_of_failure.
    destruct (_upload_to_tmpfiles svc image out) as [[url|e] out1] eqn:Hup;
      [|exact (upload_raise_fails _ _ _ _ _ Hup)].
    revert Hup. unfold _upload_to_tmpfiles. unfold_py. rewrite Hpost.
    destruct (raise_for_status resp) as [[]|e0]; [|intros [=]].
    rewrite Hjson. cbn. rewrite Hdata. cbn. intros [=].
  - intros url out1 response Hup Hchat Hdegenerate. apply parse_image_fst_of_failure.
    unfold extraction_fails, parse_image_try. unfold bind at 1. rewrite Hup.
    unfold_py. rewrite Hchat.
    destruct Hdegenerate as [->|(choice & others & -> & Hnone)]; cbn; [eauto|].
    rewrite Hnone. eauto.
Qed.

Lemma parse_image_degenerate_answers_witness :
  400 ≤ 503 < 600
  ∧ fst (parse_image Online.host_error Scenario.fake_image []) = Ok (JDict [])
  ∧ fst (parse_image Online.no_choice Scenario.fake_image []) = Ok (JDict []).
Proof.
  destruct (parse_image_degenerate_answers Online.host_error Scenario.fake_image [])
    as (Hstatus & _ & _).
  destruct (parse_image_degenerate_answers Online.no_choice Scenario.fake_image [])
    as (_ & _ & Hchoices).
  split; [lia|]. split.
  - apply (Hstatus {| status_code := 503;
                      reason := "Service Unavailable";
                      url := "https://tmpfiles.org/api/v1/upload";
                      response_json :=
                        Raise (Exception "Expecting value: line 1 column 1 (char 0)") |});
      [reflexivity|cbn; lia].
  - apply (Hchoices "https://tmpfiles.org/dl/123/receipt.jpg"
             ["https://tmpfiles.org/dl/123/receipt.jpg"] {| choices := [] |});
      [reflexivity|reflexivity|left; reflexivity].
Defined.

(** *** Polling *)

Lemma get_task_world (id : string) (w : World) :
  snd (get_task id w) = set_session (fun _ => []) w.
Proof.
  destruct (tasks w !! id) as [t|] eqn:Hrow.
  - rewrite (get_task_found _ _ _ Hrow). reflexivity.
  - rewrite (get_task_missing _ _ Hrow). reflexivity.
Qed.

(** X7: a poll for an identifier that is not in the table is answered with
    the HTTP error 404 "Task not found", and leaves the table, the output,
    the scheduled work and the trace as they were. *)
Theorem get_task_unknown_id (id : string) (w : World) :
  tasks w !! id = None →
  ∃ w', get_task id w = (Raise (HTTPException 404 "Task not found"), w')
        ∧ tasks w' = tasks w
        ∧ stdout w' = stdout w
        ∧ background_tasks w' = background_tasks w
        ∧ trace w' = trace w.
Proof.
  intros Hrow. rewrite (get_task_missing _ _ Hrow). eexists. repeat split.
Qed.

Lemma get_task_unknown_id_witness :
  tasks Scenario.created !! "nonexistent" = None
  ∧ ∃ w', get_task "nonexistent" Scenario.created
          = (Raise (HTTPException 404 "Task not found"), w')
          ∧ tasks w' = tasks Scenario.created
          ∧ stdout w' = stdout Scenario.created
          ∧ background_tasks w' = background_tasks Scenario.created
          ∧ trace w' = trace Scenario.created.
Proof.
  split; [vm_compute; reflexivity|].
  apply (get_task_unknown_id "nonexistent" Scenario.created). vm_compute; reflexivity.
Defined.

(** X8: polling only reads: whatever the identifier, a poll changes neither
    the table nor the output, the scheduled work or the trace, and leaves
    the session closed; so the answer to a poll is the same after any number
    of other polls. *)
Theorem get_task_only_reads (id : string) (w : World) :
  tasks (snd (get_task id w)) = tasks w
  ∧ stdout (snd (get_task id w)) = stdout w
  ∧ background_tasks (snd (get_task id w)) = background_tasks w
  ∧ trace (snd (get_task id w)) = trace w
  ∧ session (snd (get_task id w)) = []
  ∧ ∀ ids, fst (get_task id (polls ids w)) = fst (get_task id w).
Proof.
  rewrite get_task_world. repeat split.
  intros ids. destruct (tasks w !! id) as [t|] eqn:Hrow.
  - rewrite (get_task_after_polls _ _ _ _ Hrow), (get_task_found _ _ _ Hrow). reflexivity.
  - rewrite (get_task_missing _ _ Hrow), (get_task_missing id (polls ids w)); [reflexivity|].
    rewrite polls_tasks. exact Hrow.
Qed.

(** X9: the shape of every answer of a poll, on a table that keys rows by
    their identifier: it echoes the requested identifier, its status is
    "processing" or "completed", it has no more than three fields, and a
    field "extracted_json", when present, comes with the status "completed"
    and holds the stored result, which is not null. *)
Theorem get_task_response_shape (id : string) (w : World) (resp : pydict) :
  store_ok w →
  fst (get_task id w) = Ok resp →
  dict_get "task_id" resp = Some (JStr id)
  ∧ (dict_get "status" resp = Some (JStr "processing")
     ∨ dict_get "status" resp = Some (JStr "completed"))
  ∧ (length resp ≤ 3)%nat
  ∧ ∀ v, dict_get "extracted_json" resp = Some v →
         dict_get "status" resp = Some (JStr "completed")
         ∧ v ≠ JNone
         ∧ (extracted_json <$> tasks w !! id) = Some v.
Proof.
  intros Hinv. destruct (tasks w !! id) as [t|] eqn:Hrow.
  - rewrite (get_task_found _ _ _ Hrow). cbn. intros [= <-].
    pose proof (Hinv _ _ Hrow) as Hid.
    rewrite response_status, response_extracted_json.
    unfold get_task_response. rewrite Hid.
    destruct (extracted_json t) as [|b|n|q|s|l|d] eqn:Hres; cbn;
      repeat match goal with
             | |- context [if ?c then _ else _] => destruct c eqn:?; cbn
             end;
      (split; [reflexivity|]); (split; [auto|]); (split; [lia|]);
      intros v [=]; subst; repeat split; congruence.
  - rewrite (get_task_missing _ _ Hrow). intros [=].
Qed.

Lemma get_task_response_shape_witness :
  dict_get "task_id" (get_task_response (with_result Scenario.row Scenario.receipt 2000))
  = Some (JStr "abc123")
  ∧ (dict_get "status" (get_task_response (with_result Scenario.row Scenario.receipt 2000))
     = Some (JStr "processing")
     ∨ dict_get "status" (get_task_response (with_result Scenario.row Scenario.receipt 2000))
       = Some (JStr "completed"))
  ∧ (length (get_task_response (with_result Scenario.row Scenario.receipt 2000)) ≤ 3)%nat
  ∧ ∀ v, dict_get "extracted_json"
           (get_task_response (with_result Scenario.row Scenario.receipt 2000)) = Some v →
         dict_get "status" (get_task_response (with_result Scenario.row Scenario.receipt 2000))
         = Some (JStr "completed")
         ∧ v ≠ JNone
         ∧ (extracted_json <$> tasks Online.after_extraction !! "abc123") = Some v.
Proof.
  apply (get_task_response_shape "abc123" Online.after_extraction).
  - apply process_task_store_ok, created_store_ok.
  - vm_compute; reflexivity.
Defined.

(** *** The processor *)

Lemma py_eqb_none_l (v : json) : py_eqb JNone v = is_None v.
Proof. destruct v; reflexivity. Qed.

Lemma py_eqb_none_r (v : json) : py_eqb v JNone = is_None v.
Proof. destruct v; reflexivity. Qed.

(** A run whose extraction returns and whose commit goes through. *)
Lemma process_task_success (json_parser : parse_image_t) (rt : Runtime) (id : string)
    (w : World) (t : Task) (v : json) (out : list string) :
  tasks w !! id = Some t →
  task_id t = id →
  json_parser (image_data t) (stdout w) = (Ok v, out) →
  storage_fails rt = false →
  ∃ w', process_task json_parser rt id w = (Ok tt, w')
        ∧ tasks w' = <[id := stored_after t v (utcnow rt)]> (tasks w)
        ∧ stdout w' = out ++ ["Task " +:+ id +:+ " processed successfully"]
        ∧ trace w' = trace w ++ [EvParseImage id; EvCommit]
        ∧ background_tasks w' = background_tasks w.
Proof.
  intros Hrow Hid Hparse Hst.
  rewrite (process_task_found _ _ _ _ _ Hrow).
  rewrite (process_task_try_commits _ _ _ _ _ v out); auto.
  - eexists. split; [reflexivity|]. cbn. rewrite Hid, <- app_assoc. repeat split.
  - cbn. rewrite Hid. exact Hrow.
Qed.

(** X10: when the wrapper returns a value for the stored image and the
    commit goes through, the processor prints its success line, and what it
    writes depends on the value: when it differs (by [==]) from the stored
    result, the row gets exactly that value and the time of the run, keeps
    [task_id], [image_data] and [created_at], and, the value being true in
    Python's sense, the next poll carries it under "extracted_json"; when it
    equals the stored result, no UPDATE is emitted and the whole table,
    [updated_at] of the row included, is as before. *)
Theorem process_task_stores_result (json_parser : parse_image_t) (rt : Runtime)
    (id : string) (w : World) (t : Task) (v : json) (out : list string) :
  store_ok w →
  tasks w !! id = Some t →
  json_parser (image_data t) (stdout w) = (Ok v, out) →
  storage_fails rt = false →
  ∃ w', process_task json_parser rt id w = (Ok tt, w')
        ∧ stdout w' = out ++ ["Task " +:+ id +:+ " processed successfully"]
        ∧ (py_eqb v (extracted_json t) = true → tasks w' = tasks w)
        ∧ (py_eqb v (extracted_json t) = false →
           tasks w' !! id
           = Some {| task_id := id; image_data := image_data t; extracted_json := v;
                     created_at := created_at t; updated_at := utcnow rt |}
           ∧ (truthy v = true →
              fst (get_task id w')
              = Ok [("task_id", JStr id); ("status", JStr "completed");
                    ("extracted_json", v)])).
Proof.
  intros Hinv Hrow Hparse Hst. pose proof (Hinv _ _ Hrow) as Hid.
  destruct (process_task_success _ _ _ _ _ _ _ Hrow Hid Hparse Hst)
    as (w' & Hrun & Htasks & Hout & _).
  exists w'. split; [exact Hrun|]. split; [exact Hout|]. split.
  - intros Heq. rewrite Htasks. unfold stored_after. rewrite Heq.
    apply insert_id, Hrow.
  - intros Hne.
    assert (Hrow' : tasks w' !! id = Some (with_result t v (utcnow rt))).
    { rewrite Htasks. unfold stored_after. rewrite Hne. apply lookup_insert_eq. }
    split; [rewrite Hrow'; unfold with_result; congruence|].
    intros Htruthy. rewrite (get_task_found _ _ _ Hrow').
    unfold get_task_response. cbn. rewrite Htruthy, Hid.
    destruct v; try discriminate; reflexivity.
Qed.

Lemma process_task_stores_result_witness :
  py_eqb Online.parsed (extracted_json Scenario.row) = false
  ∧ ∃ w', process_task (parse_image Online.svc) Scenario.at_process "abc123"
            Scenario.created = (Ok tt, w')
          ∧ stdout w' = ["https://tmpfiles.org/dl/123/receipt.jpg"]
                        ++ ["Task " +:+ "abc123" +:+ " processed successfully"]
          ∧ tasks w' !! "abc123"
            = Some {| task_id := "abc123"; image_data := image_data Scenario.row;
                      extracted_json := Online.parsed;
                      created_at := created_at Scenario.row; updated_at := 2000 |}
          ∧ fst (get_task "abc123" w')
            = Ok [("task_id", JStr "abc123"); ("status", JStr "completed");
                  ("extracted_json", Online.parsed)].
Proof.
  split; [reflexivity|].
  destruct (process_task_stores_result (parse_image Online.svc) Scenario.at_process "abc123"
              Scenario.created Scenario.row Online.parsed
              ["https://tmpfiles.org/dl/123/receipt.jpg"])
    as (w' & Hrun & Hout & _ & Hwrites).
  - exact created_store_ok.
  - vm_compute; reflexivity.
  - vm_compute; reflexivity.
  - reflexivity.
  - destruct (Hwrites eq_refl) as [Hrow Hpoll].
    exists w'. split; [exact Hrun|]. split; [exact Hout|]. split; [exact Hrow|].
    apply Hpoll. reflexivity.
Defined.

(** X11: when the wrapper returns [None] (the model answered with the JSON
    text null), the processor commits and reports success, yet the task has
    no result: every later poll still answers "processing". *)
Theorem process_task_null_result (json_parser : parse_image_t) (rt : Runtime)
    (id : string) (w : World) (t : Task) (out : list string) :
  store_ok w →
  tasks w !! id = Some t →
  json_parser (image_data t) (stdout w) = (Ok JNone, out) →
  storage_fails rt = false →
  ∃ w', process_task json_parser rt id w = (Ok tt, w')
        ∧ stdout w' = out ++ ["Task " +:+ id +:+ " processed successfully"]
        ∧ ∀ ids, fst (get_task id (polls ids w'))
                 = Ok [("task_id", JStr id); ("status", JStr "processing")].
Proof.
  intros Hinv Hrow Hparse Hst. pose proof (Hinv _ _ Hrow) as Hid.
  destruct (process_task_success _ _ _ _ _ _ _ Hrow Hid Hparse Hst)
    as (w' & Hrun & Htasks & Hout & _).
  assert (Hrow' : tasks w' !! id = Some (stored_after t JNone (utcnow rt))).
  { rewrite Htasks. apply lookup_insert_eq. }
  exists w'. split; [exact Hrun|]. split; [exact Hout|].
  intros ids. rewrite (get_task_after_polls _ _ _ _ Hrow').
  unfold stored_after. rewrite py_eqb_none_l.
  destruct (is_None (extracted_json t)) eqn:Hnone.
  - unfold get_task_response. rewrite Hnone, Hid. reflexivity.
  - unfold get_task_response. cbn. rewrite Hid. reflexivity.
Qed.

Lemma process_task_null_result_witness :
  ∃ w', process_task (Scenario.stub_returning JNone) Scenario.at_process "abc123"
          Scenario.created = (Ok tt, w')
        ∧ stdout w' = [] ++ ["Task " +:+ "abc123" +:+ " processed successfully"]
        ∧ ∀ ids, fst (get_task "abc123" (polls ids w'))
                 = Ok [("task_id", JStr "abc123"); ("status", JStr "processing")].
Proof.
  apply (process_task_null_result (Scenario.stub_returning JNone) Scenario.at_process
           "abc123" Scenario.created Scenario.row []).
  - exact created_store_ok.
  - vm_compute; reflexivity.
  - reflexivity.
  - reflexivity.
Defined.

(** X12: nothing prevents a second run on the same task, and the last
    write wins: after a first run that writes [v1] (a value different from
    the stored result) and a second run that returns [v2], both commits
    going through, the row holds [v2] and the time of the second run when
    [v2] differs (by [==]) from [v1]; when [v2] equals [v1] the second run
    emits no UPDATE and the row keeps [v1] and the time of the first run.
    The image and the creation time are kept in both cases. *)
Theorem process_task_last_write_wins (parser1 parser2 : parse_image_t) (rt1 rt2 : Runtime)
    (id : string) (w : World) (t : Task) (v1 v2 : json) :
  store_ok w →
  tasks w !! id = Some t →
  (∀ out, ∃ out', parser1 (image_data t) out = (Ok v1, out')) →
  (∀ out, ∃ out', parser2 (image_data t) out = (Ok v2, out')) →
  storage_fails rt1 = false →
  storage_fails rt2 = false →
  py_eqb v1 (extracted_json t) = false →
  tasks (snd (process_task parser2 rt2 id (snd (process_task parser1 rt1 id w)))) !! id
  = Some (if py_eqb v2 v1
          then {| task_id := id; image_data := image_data t; extracted_json := v1;
                  created_at := created_at t; updated_at := utcnow rt1 |}
          else {| task_id := id; image_data := image_data t; extracted_json := v2;
                  created_at := created_at t; updated_at := utcnow rt2 |}).
Proof.
  intros Hinv Hrow Hp1 Hp2 Hst1 Hst2 Hne. pose proof (Hinv _ _ Hrow) as Hid.
  destruct (Hp1 (stdout w)) as [out1 Hparse1].
  destruct (process_task_success _ _ _ _ _ _ _ Hrow Hid Hparse1 Hst1)
    as (w1 & Hrun1 & Htasks1 & _).
  rewrite Hrun1. change (snd (Ok tt, w1)) with w1.
  assert (Hrow1 : tasks w1 !! id = Some (with_result t v1 (utcnow rt1))).
  { rewrite Htasks1. unfold stored_after. rewrite Hne. apply lookup_insert_eq. }
  destruct (Hp2 (stdout w1)) as [out2 Hparse2].
  destruct (process_task_success parser2 rt2 id w1 _ v2 out2 Hrow1 Hid Hparse2 Hst2)
    as (w2 & Hrun2 & Htasks2 & _).
  rewrite Hrun2. change (snd (Ok tt, w2)) with w2.
  rewrite Htasks2, lookup_insert_eq. unfold stored_after, with_result. cbn.
  rewrite Hid. destruct (py_eqb v2 v1); reflexivity.
Qed.

Lemma process_task_last_write_wins_witness :
  py_eqb Scenario.receipt (extracted_json Scenario.row) = false
  ∧ tasks (snd (process_task (Scenario.stub_returning (JDict []))
                  Online.at_second_create "abc123"
                  (snd (process_task (Scenario.stub_returning Scenario.receipt)
                          Scenario.at_process "abc123" Scenario.created)))) !! "abc123"
    = Some (if py_eqb (JDict []) Scenario.receipt
            then {| task_id := "abc123"; image_data := image_data Scenario.row;
                    extracted_json := Scenario.receipt;
                    created_at := created_at Scenario.row; updated_at := 2000 |}
            else {| task_id := "abc123"; image_data := image_data Scenario.row;
                    extracted_json := JDict [];
                    created_at := created_at Scenario.row; updated_at := 3001 |}).
Proof.
  split; [reflexivity|].
  apply (process_task_last_write_wins (Scenario.stub_returning Scenario.receipt)
           (Scenario.stub_returning (JDict [])) Scenario.at_process Online.at_second_create
           "abc123" Scenario.created Scenario.row Scenario.receipt (JDict [])).
  - exact created_store_ok.
  - vm_compute; reflexivity.
  - intros out. exists out. reflexivity.
  - intros out. exists out. reflexivity.
  - reflexivity.
  - reflexivity.
  - reflexivity.
Defined.

(** A second run that returns the value of the first one writes nothing:
    the row keeps the time of the first run. *)
Example second_equal_result_keeps_time :
  tasks (snd (process_task (Scenario.stub_returning Scenario.receipt)
                Online.at_second_create "abc123" Online.after_extraction)) !! "abc123"
  = tasks Online.after_extraction !! "abc123"
  ∧ (updated_at <$> tasks Online.after_extraction !! "abc123") = Some 2000.
Proof. vm_compute. split; reflexivity. Qed.

Lemma process_task_try_shape (json_parser : parse_image_t) (rt : Runtime) (id : string)
    (t : Task) (w w1 : World) (r : result unit) :
  session w = [] →
  process_task_try json_parser rt id t w = (r, w1) →
  background_tasks w1 = background_tasks w
  ∧ (trace w1 = trace w ++ [EvParseImage (task_id t)]
     ∨ trace w1 = trace w ++ [EvParseImage (task_id t); EvCommit]).
Proof.
  intros Hsess. unfold process_task_try, db_commit. unfold_py. cbn.
  destruct (json_parser (image_data t) (stdout w)) as [[v|e] out]; cbn.
  - destruct (storage_fails rt); cbn; [intros [= <- <-]; cbn; auto|].
    rewrite Hsess. cbn.
    destruct (tasks w !! task_id t) as [t0|]; cbn; [|intros [= <- <-]; cbn; auto].
    destruct (py_eqb v (extracted_json t0)); cbn; intros [= <- <-]; cbn;
      (split; [reflexivity|]); right; rewrite <- app_assoc; reflexivity.
  - intros [= <- <-]. cbn. auto.
Qed.

(** No run of the processor touches the scheduled work. *)
Lemma process_task_background (json_parser : parse_image_t) (rt : Runtime) (id : string)
    (w : World) :
  background_tasks (snd (process_task json_parser rt id w)) = background_tasks w.
Proof.
  destruct (tasks w !! id) as [t|] eqn:Hrow.
  - rewrite (process_task_found _ _ _ _ _ Hrow).
    destruct (process_task_try json_parser rt id t _) as [r w1] eqn:Htry.
    destruct (process_task_try_shape json_parser rt id t
                (set_session (fun _ => []) w) w1 r) as [Hbg _];
      [reflexivity | exact Htry |].
    destruct r as [[]|e]; exact Hbg.
  - rewrite (process_task_absent _ _ _ _ Hrow). reflexivity.
Qed.

(** X13: whatever its outcome, a run of the processor leaves the session
    closed, schedules no further work, and calls the wrapper at most once:
    the trace grows by nothing, by one extraction, or by one extraction
    followed by one commit. *)
Theorem process_task_contained (json_parser : parse_image_t) (rt : Runtime) (id : string)
    (w : World) :
  session (snd (process_task json_parser rt id w)) = []
  ∧ background_tasks (snd (process_task json_parser rt id w)) = background_tasks w
  ∧ ∃ l, trace (snd (process_task json_parser rt id w)) = trace w ++ l
         ∧ processor_events l.
Proof.
  destruct (tasks w !! id) as [t|] eqn:Hrow.
  - rewrite (process_task_found _ _ _ _ _ Hrow).
    destruct (process_task_try json_parser rt id t _) as [r w1] eqn:Htry.
    destruct (process_task_try_shape json_parser rt id t
                (set_session (fun _ => []) w) w1 r) as [Hbg Htrace];
      [reflexivity | exact Htry |].
    assert (Hevents : ∃ l, trace w1 = trace w ++ l ∧ processor_events l).
    { destruct Htrace as [Ht|Ht]; eexists; (split; [exact Ht|]);
        right; exists (task_id t); auto. }
    destruct r as [[]|e]; cbn; auto.
  - rewrite (process_task_absent _ _ _ _ Hrow). cbn.
    split; [reflexivity|]. split; [reflexivity|].
    exists []. rewrite app_nil_r. split; [reflexivity|]. left. reflexivity.
Qed.

(** *** Creation *)

Lemma create_task_keeps_row (rt : Runtime) (contents : list byte) (w : World)
    (k : string) (t : Task) :
  tasks w !! k = Some t → tasks (snd (create_task rt contents w)) !! k = Some t.
Proof.
  intros Hk. destruct (create_task rt contents w) as [[resp|e] w'] eqn:Hrun; cbn.
  - destruct (create_task_returns_inv _ _ _ _ _ Hrun) as [Hst Hfresh].
    destruct (create_task_ok rt contents w Hst Hfresh) as (w1 & Heq & Htasks & _).
    rewrite Heq in Hrun. injection Hrun as _ <-. rewrite Htasks.
    rewrite lookup_insert_ne; [exact Hk|]. intros <-. congruence.
  - destruct (create_task_raises_inv _ _ _ _ _ Hrun) as [-> _]. exact Hk.
Qed.

(** X14: [create_task] answers exactly when the storage takes the commit
    and the generated identifier is not in the table; otherwise it raises.
    In both cases every row that was in the table is still there unchanged:
    a colliding identifier never overwrites a task. *)
Theorem create_task_answers_iff (rt : Runtime) (contents : list byte) (w : World) :
  ((∃ resp w', create_task rt contents w = (Ok resp, w'))
   ↔ storage_fails rt = false ∧ tasks w !! uuid4 rt = None)
  ∧ ∀ k t, tasks w !! k = Some t →
           tasks (snd (create_task rt contents w)) !! k = Some t.
Proof.
  split.
  - split.
    + intros (resp & w' & Hrun). exact (create_task_returns_inv _ _ _ _ _ Hrun).
    + intros [Hst Hfresh].
      destruct (create_task_ok rt contents w Hst Hfresh) as (w' & Heq & _). eauto.
  - intros k t. apply create_task_keeps_row.
Qed.

Lemma create_task_answers_iff_witness :
  tasks Scenario.created !! "abc123" = Some Scenario.row
  ∧ tasks (snd (create_task Online.colliding_create [] Scenario.created)) !! "abc123"
    = Some Scenario.row
  ∧ ∃ resp w', create_task Online.at_second_create [] Scenario.created = (Ok resp, w').
Proof.
  split; [vm_compute; reflexivity|].
  destruct (create_task_answers_iff Online.colliding_create [] Scenario.created)
    as [_ Hkeeps].
  destruct (create_task_answers_iff Online.at_second_create [] Scenario.created)
    as [[_ Hanswers] _].
  split.
  - apply Hkeeps. vm_compute; reflexivity.
  - apply Hanswers. split; vm_compute; reflexivity.
Defined.

(** *** The life of a task *)

Lemma serve_keeps_columns (c : call) (w : World) (k : string) (t : Task) :
  store_ok w →
  tasks w !! k = Some t →
  ∃ t', tasks (serve c w) !! k = Some t'
        ∧ task_id t' = task_id t
        ∧ image_data t' = image_data t
        ∧ created_at t' = created_at t.
Proof.
  intros Hinv Hk. destruct c as [rt contents|json_parser rt id|id]; unfold serve.
  - exists t. split; [apply create_task_keeps_row, Hk|auto].
  - destruct (decide (k = id)) as [->|Hne].
    + destruct (process_task_tasks json_parser rt id w t Hinv Hk) as [->|[v ->]].
      * exists t. auto.
      * eexists. rewrite lookup_insert_eq. split; [reflexivity|]. cbn. auto.
    + destruct (tasks w !! id) as [t0|] eqn:Hrow.
      * destruct (process_task_tasks json_parser rt id w t0 Hinv Hrow) as [->|[v ->]].
        -- exists t. auto.
        -- exists t. rewrite lookup_insert_ne by congruence. auto.
      * rewrite (process_task_absent _ _ _ _ Hrow). exists t. auto.
  - rewrite get_task_tasks. exists t. auto.
Qed.

Lemma serve_store_ok (c : call) (w : World) : store_ok w → store_ok (serve c w).
Proof.
  intros Hinv. destruct c as [rt contents|json_parser rt id|id]; unfold serve.
  - apply create_task_store_ok, Hinv.
  - apply process_task_store_ok, Hinv.
  - apply get_task_store_ok, Hinv.
Qed.

(** X15: over any sequence of uploads, processor runs and polls, a task
    that is in the table stays in the table, under the same identifier and
    with the image bytes and the creation time it had: only its result and
    [updated_at] can ever change, and no call deletes it. *)
Theorem task_columns_immutable (calls : list call) (w : World) (k : string) (t : Task) :
  store_ok w →
  tasks w !! k = Some t →
  ∃ t', tasks (serve_all calls w) !! k = Some t'
        ∧ task_id t' = task_id t
        ∧ image_data t' = image_data t
        ∧ created_at t' = created_at t.
Proof.
  unfold serve_all. revert w t.
  induction calls as [|c calls IH]; intros w t Hinv Hk; cbn.
  - exists t. auto.
  - destruct (serve_keeps_columns c w k t Hinv Hk) as (t1 & Hk1 & Hid1 & Himg1 & Hcr1).
    destruct (IH (serve c w) t1 (serve_store_ok c w Hinv) Hk1)
      as (t' & Hk' & Hid' & Himg' & Hcr').
    exists t'. split; [exact Hk'|]. repeat split; congruence.
Qed.

Lemma task_columns_immutable_witness :
  ∃ t', tasks (serve_all
                 [CallProcess (parse_image Online.svc) Scenario.at_process "abc123";
                  CallPoll "abc123";
                  CallCreate Online.colliding_create [];
                  CallProcess Scenario.stub_raising Scenario.storage_down "abc123"]
                 Scenario.created) !! "abc123" = Some t'
        ∧ task_id t' = task_id Scenario.row
        ∧ image_data t' = image_data Scenario.row
        ∧ created_at t' = created_at Scenario.row.
Proof.
  apply (task_columns_immutable
           [CallProcess (parse_image Online.svc) Scenario.at_process "abc123";
            CallPoll "abc123";
            CallCreate Online.colliding_create [];
            CallProcess Scenario.stub_raising Scenario.storage_down "abc123"]
           Scenario.created "abc123" Scenario.row).
  - exact created_store_ok.
  - vm_compute; reflexivity.
Defined.

Lemma serve_scheduled_ok (c : call) (w : World) :
  scheduled_ok w → scheduled_ok (serve c w).
Proof.
  intros Hinv. destruct c as [rt contents|json_parser rt id|id]; unfold serve.
  - destruct (create_task rt contents w) as [[resp|e] w'] eqn:Hrun; cbn.
    + destruct (create_task_returns_inv _ _ _ _ _ Hrun) as [Hst Hfresh].
      destruct (create_task_ok rt contents w Hst Hfresh) as (w1 & Heq & Htasks & _ & Hbg & _).
      rewrite Heq in Hrun. injection Hrun as _ <-.
      intros queue id. rewrite Hbg, Htasks.
      destruct (background_tasks w) as [q|] eqn:Hq; [|discriminate].
      intros [= <-] Hin. rewrite lookup_insert. case_decide; [eauto|].
      apply elem_of_app in Hin as [Hin|Hin].
      * apply (Hinv q id); [exact Hq|exact Hin].
      * apply list_elem_of_singleton in Hin. congruence.
    + destruct (create_task_raises_inv _ _ _ _ _ Hrun) as (Htasks & _ & Hbg & _).
      intros queue id. rewrite Hbg, Htasks. apply Hinv.
  - intros queue k Hq Hin. apply process_task_keeps_rows.
    rewrite process_task_background in Hq. exact (Hinv queue k Hq Hin).
  - rewrite get_task_world. exact Hinv.
Qed.

(** X16: two invariants of every state the service reaches: each row is
    stored under its own [task_id], and every identifier handed to
    [add_task] names a row of the table, so that a scheduled run of the
    processor finds its task. *)
Theorem service_invariants (calls : list call) (w : World) :
  store_ok w →
  scheduled_ok w →
  store_ok (serve_all calls w) ∧ scheduled_ok (serve_all calls w).
Proof.
  unfold serve_all. revert w.
  induction calls as [|c calls IH]; intros w Hstore Hsched; cbn; [auto|].
  apply IH; [apply serve_store_ok, Hstore | apply serve_scheduled_ok, Hsched].
Qed.

Lemma world0_scheduled_ok : scheduled_ok Scenario.world0.
Proof. intros queue id [= <-] Hin. inversion Hin. Qed.

Lemma service_invariants_witness :
  store_ok (serve_all [CallCreate Scenario.at_create Scenario.fake_image;
                       CallProcess (parse_image Online.svc) Scenario.at_process "abc123";
                       CallCreate Online.at_second_create []]
              Scenario.world0)
  ∧ scheduled_ok (serve_all [CallCreate Scenario.at_create Scenario.fake_image;
                             CallProcess (parse_image Online.svc) Scenario.at_process "abc123";
                             CallCreate Online.at_second_create []]
                    Scenario.world0).
Proof.
  apply (service_invariants
           [CallCreate Scenario.at_create Scenario.fake_image;
            CallProcess (parse_image Online.svc) Scenario.at_process "abc123";
            CallCreate Online.at_second_create []]
           Scenario.world0).
  - exact world0_store_ok.
  - exact world0_scheduled_ok.
Defined.

(** X17: the whole life of an upload: with a healthy storage and a fresh
    identifier, [create_task] answers with the identifier and a poll says
    "processing"; after a run of the processor whose wrapper returns [v] for
    the uploaded bytes, the row holds the uploaded bytes and the creation
    time, with the result [v] and the time of the run when [v] is not
    [None], and is the row of the upload as it was when [v] is [None]; a
    poll then carries [v] under "extracted_json" when [v] is true in
    Python's sense. *)
Theorem upload_process_poll (json_parser : parse_image_t) (rt rt' : Runtime)
    (contents : list byte) (w : World) (v : json) :
  storage_fails rt = false →
  storage_fails rt' = false →
  tasks w !! uuid4 rt = None →
  (∀ out, ∃ out', json_parser contents out = (Ok v, out')) →
  let w1 := snd (create_task rt contents w) in
  let w2 := snd (process_task json_parser rt' (uuid4 rt) w1) in
  fst (create_task rt contents w) = Ok [("task_id", JStr (uuid4 rt))]
  ∧ fst (get_task (uuid4 rt) w1)
    = Ok [("task_id", JStr (uuid4 rt)); ("status", JStr "processing")]
  ∧ tasks w2 !! uuid4 rt
    = Some (if is_None v
            then {| task_id := uuid4 rt; image_data := contents; extracted_json := JNone;
                    created_at := utcnow_created rt; updated_at := utcnow rt |}
            else {| task_id := uuid4 rt; image_data := contents; extracted_json := v;
                    created_at := utcnow_created rt; updated_at := utcnow rt' |})
  ∧ (truthy v = true →
     fst (get_task (uuid4 rt) w2)
     = Ok [("task_id", JStr (uuid4 rt)); ("status", JStr "completed");
           ("extracted_json", v)]).
Proof.
  intros Hst Hst' Hfresh Hparser w1 w2. subst w1 w2.
  destruct (create_task_ok rt contents w Hst Hfresh) as (w1 & Heq & Htasks & _).
  rewrite Heq. change (snd (Ok [("task_id", JStr (uuid4 rt))], w1)) with w1.
  assert (Hrow : tasks w1 !! uuid4 rt = Some (new_task rt contents)).
  { rewrite Htasks. apply lookup_insert_eq. }
  destruct (Hparser (stdout w1)) as [out Hparse].
  destruct (process_task_success json_parser rt' (uuid4 rt) w1 (new_task rt contents) v out
              Hrow eq_refl Hparse Hst') as (w2 & Hrun & Htasks2 & _).
  rewrite Hrun. change (snd (Ok tt, w2)) with w2.
  assert (Hrow2 : tasks w2 !! uuid4 rt
                  = Some (if is_None v then new_task rt contents
                          else with_result (new_task rt contents) v (utcnow rt'))).
  { rewrite Htasks2, lookup_insert_eq. unfold stored_after.
    change (extracted_json (new_task rt contents)) with JNone.
    rewrite py_eqb_none_r. reflexivity. }
  split; [reflexivity|].
  split; [rewrite (get_task_found _ _ _ Hrow); reflexivity|].
  split; [exact Hrow2|].
  intros Htruthy. rewrite (get_task_found _ _ _ Hrow2).
  destruct v; try discriminate; unfold get_task_response; cbn in *;
    rewrite ?Htruthy; reflexivity.
Qed.

Lemma upload_process_poll_witness :
  fst (create_task Scenario.at_create Scenario.fake_image Scenario.world0)
  = Ok [("task_id", JStr "abc123")]
  ∧ fst (get_task "abc123" Scenario.created)
    = Ok [("task_id", JStr "abc123"); ("status", JStr "processing")]
  ∧ tasks Online.after_extraction !! "abc123"
    = Some (if is_None Scenario.receipt
            then {| task_id := "abc123"; image_data := Scenario.fake_image;
                    extracted_json := JNone;
                    created_at := 1000; updated_at := 1001 |}
            else {| task_id := "abc123"; image_data := Scenario.fake_image;
                    extracted_json := Scenario.receipt;
                    created_at := 1000; updated_at := 2000 |})
  ∧ (truthy Scenario.receipt = true →
     fst (get_task "abc123" Online.after_extraction)
     = Ok [("task_id", JStr "abc123"); ("status", JStr "completed");
           ("extracted_json", Scenario.receipt)]).
Proof.
  apply (upload_process_poll (Scenario.stub_returning Scenario.receipt) Scenario.at_create
           Scenario.at_process Scenario.fake_image Scenario.world0 Scenario.receipt).
  - reflexivity.
  - reflexivity.
  - vm_compute; reflexivity.
  - intros out. exists out. reflexivity.
Defined.
